(** * trailmark: derived waypoints and telemetry for a GPX hiking trail

    A shallow embedding of [trailmark.py].  The functions of the script are
    translated one by one, with the same names:

      - [calculate_distance]   (lines 38-66)
      - [find_extreme_points]  (lines 69-89)
      - [find_halfway_point]   (lines 92-114)
      - [generate_waypoints]   (lines 117-182)

    Python exceptions are values of [exception]; a function that may raise
    returns a [result].  The GPX document is a record that
    [generate_waypoints] takes and gives back, since the script renames the
    first track and rewrites its comment in place.

    Numbers.  The script computes with Python floats (and the int literals
    [0], [1000], [2]).  The operations it uses are gathered in the class
    [PyNumber]; every function is written over an arbitrary instance, and
    whatever is proved without an instance holds for any arithmetic,
    binary64 included.  Two instances are given: [Q_number], exact rational
    arithmetic (no rounding, no NaN, no infinity), on which the properties
    that need arithmetic laws are proved, and [float64_number], the
    kernel's binary64 floats, on which the model can be run.

    The geodesic routine [Geod.inv] of pyproj and the float formatting of
    f-strings are collaborators of the script: they are parameters.

    The rest of the script, [load_gpx], [save_combined_gpx], the two
    validators and [main], follows the four functions, with the file
    system, gpxpy, [re] and argparse as parameters. *)

From Stdlib Require Import Floats.
From Stdlib Require Import List String Ascii ZArith QArith Lia Bool.
From Stdlib Require Import DecimalString DecimalZ DecimalPos Qabs Qround Lqa Sorted.
From Stdlib Require Import Finite.
Import ListNotations.

Local Open Scope list_scope.
Local Open Scope string_scope.

(** ** Exceptions and results *)

Inductive exception : Type :=
| ValueError (msg : string)
| RuntimeError (msg : string)
| IndexError (msg : string)
| OverflowError (msg : string)
| OtherError (msg : string).

(** [str(e)], as the f-strings of the handlers print it. *)
Definition str (e : exception) : string :=
  match e with
  | ValueError msg | RuntimeError msg | IndexError msg
  | OverflowError msg | OtherError msg => msg
  end.

Definition result (A : Type) : Type := (exception + A)%type.

Definition ret {A} (a : A) : result A := inr a.
Definition raise {A} (e : exception) : result A := inl e.

Definition bind {A B} (c : result A) (k : A -> result B) : result B :=
  match c with
  | inl e => inl e
  | inr a => k a
  end.

Notation "x <- c ;; k" := (bind c (fun x => k))
  (at level 61, c at next level, right associativity).
Notation "' p <- c ;; k" := (bind c (fun p => k))
  (at level 61, p pattern, c at next level, right associativity).

(** [try: c  except Exception as e: raise RuntimeError(f"{what}: {e}")] *)
Definition try_except {A} (what : string) (c : result A) : result A :=
  match c with
  | inl e => raise (RuntimeError (what ++ ": " ++ str e))
  | inr a => ret a
  end.

(** ** Python lists and loops *)

(** [l[i]] for [0 <= i]. *)
Definition getitem {A} (l : list A) (i : nat) : result A :=
  match nth_error l i with
  | Some a => ret a
  | None => raise (IndexError "list index out of range")
  end.

(** [l[-1]] *)
Definition getitem_last {A} (l : list A) : result A :=
  match rev l with
  | a :: _ => ret a
  | [] => raise (IndexError "list index out of range")
  end.

(** [range(start, stop)] over list indices. *)
Definition range (start stop : nat) : list nat := seq start (stop - start).

(** [range(start, stop, step)] over Python ints, for [0 < step]. *)
Definition range_step (start stop step : Z) : list Z :=
  map (fun j => (start + step * Z.of_nat j)%Z)
      (seq 0 (Z.to_nat ((stop - start + step - 1) / step))).

(** [enumerate(l)] *)
Definition enumerate {A} (l : list A) : list (nat * A) :=
  combine (seq 0 (List.length l)) l.

(** [for x in xs: s = body(x, s)], leaving the loop at the first exception. *)
Fixpoint for_each {I S} (xs : list I) (body : I -> S -> result S) (s : S)
  : result S :=
  match xs with
  | [] => ret s
  | x :: xs' => s' <- body x s ;; for_each xs' body s'
  end.

(** [str(n)] of a Python int. *)
Definition str_int (n : Z) : string := NilZero.string_of_int (Z.to_int n).

(** The newline of the telemetry block. *)
Definition nl : string := String (ascii_of_nat 10) EmptyString.

(** ** Numbers *)

Class PyNumber : Type := {
  num : Type;
  of_int : Z -> num;               (* an int literal or variable used as a number *)
  add : num -> num -> num;         (* x + y *)
  sub : num -> num -> num;         (* x - y *)
  mul : num -> num -> num;         (* x * y *)
  div : num -> num -> num;         (* x / y, y a non-zero literal *)
  ge : num -> num -> bool;         (* x >= y *)
  gt : num -> num -> bool;         (* x > y *)
  lt : num -> num -> bool;         (* x < y *)
  int_of : num -> result Z         (* int(x): truncation towards zero *)
}.

(** Exact rationals.  [int(x)] drops the fraction, towards zero. *)
Definition Qtruncate (x : Q) : Z := Z.quot (Qnum x) (Zpos (Qden x)).

#[export] Instance Q_number : PyNumber := {|
  num := Q;
  of_int := inject_Z;
  add := Qplus;
  sub := Qminus;
  mul := Qmult;
  div := Qdiv;
  ge x y := Qle_bool y x;
  gt x y := negb (Qle_bool x y);
  lt x y := negb (Qle_bool y x);
  int_of x := ret (Qtruncate x)
|}.

(** Binary64 floats.  [int(x)] raises on NaN and on the infinities, as
    CPython does. *)
Definition float_of_int (z : Z) : float :=
  SF2Prim (binary_normalize prec emax z 0 false).

Definition int_of_float (x : float) : result Z :=
  match Prim2SF x with
  | S754_nan => raise (ValueError "cannot convert float NaN to integer")
  | S754_infinity _ =>
    raise (OverflowError "cannot convert float infinity to integer")
  | S754_zero _ => ret 0%Z
  | S754_finite s m e =>
    let magnitude :=
      if (0 <=? e)%Z then (Zpos m * 2 ^ e)%Z else (Zpos m / 2 ^ (- e))%Z in
    ret (if s then (- magnitude)%Z else magnitude)
  end.

Definition float64_number : PyNumber := {|
  num := float;
  of_int := float_of_int;
  add := PrimFloat.add;
  sub := PrimFloat.sub;
  mul := PrimFloat.mul;
  div := PrimFloat.div;
  ge x y := PrimFloat.leb y x;
  gt x y := PrimFloat.ltb y x;
  lt x y := PrimFloat.ltb x y;
  int_of := int_of_float
|}.

(** ** The data model of gpxpy, as far as the script reads and writes it *)

Section Trailmark.

Context {number : PyNumber}.

Record TrackPoint : Type := {
  latitude : num;
  longitude : num;
  elevation : option num
}.

Record Segment : Type := { points : list TrackPoint }.

Record Track : Type := {
  name : option string;
  comment : option string;
  segments : list Segment
}.

Record GPX : Type := { tracks : list Track }.

(** [Geod(ellps="WGS84").inv(lon1, lat1, lon2, lat2)]: the third component
    of its answer, the distance in metres, or the exception it raised. *)
Variable geod_inv : num -> num -> num -> num -> result num.

(** [f"{x:.2f}"] is [format_f 2 x] and [f"{x:.0f}"] is [format_f 0 x]. *)
Variable format_f : nat -> num -> string.

(** ** calculate_distance *)

(** The body of the loop, lines 57-62, at index [i]. *)
Definition distance_step (points : list TrackPoint) (i : nat)
  (state : num * list num) : result (num * list num) :=
  let '(total_distance, distances) := state in
  prev <- getitem points (i - 1) ;;
  cur <- getitem points i ;;
  distance <- geod_inv (longitude prev) (latitude prev)
                       (longitude cur) (latitude cur) ;;
  let total_distance := add total_distance (div distance (of_int 1000)) in
  ret (total_distance, (distances ++ [total_distance])%list).

Definition calculate_distance (points : list TrackPoint)
  : result (num * list num) :=
  match points with
  | [] => raise (ValueError "No points found in the track.")
  | _ :: _ =>
    let total_distance := of_int 0 in
    let distances := [of_int 0] in
    try_except "Error calculating distance"
      (for_each (range 1 (List.length points)) (distance_step points)
                (total_distance, distances))
  end.

(** ** find_extreme_points *)

(** [max(l, key=...)] and [min(l, key=...)] of Python on a non-empty list
    [x :: xs]: the items are visited in order, and the one kept changes only
    when an item's key is strictly greater (smaller) than the kept one's. *)
Definition max_by {A} (key : A -> num) (x : A) (xs : list A) : A :=
  fold_left (fun best a => if gt (key a) (key best) then a else best) xs x.

Definition min_by {A} (key : A -> num) (x : A) (xs : list A) : A :=
  fold_left (fun best a => if lt (key a) (key best) then a else best) xs x.

(** [[p for p in points if p.elevation is not None]]; each point comes with
    the elevation that the test found, which is the key of [max] and [min]. *)
Definition valid_points (points : list TrackPoint)
  : list (TrackPoint * num) :=
  flat_map (fun p => match elevation p with
                     | Some e => [(p, e)]
                     | None => []
                     end) points.

Definition find_extreme_points (points : list TrackPoint)
  : result (TrackPoint * TrackPoint) :=
  match valid_points points with
  | [] => raise (ValueError "No valid elevation data found.")
  | v :: vs =>
    try_except "Error finding extreme points"
      (let highest := max_by snd v vs in
       let lowest := min_by snd v vs in
       ret (fst highest, fst lowest))
  end.

(** ** find_halfway_point *)

(** The loop of lines 108-110: [None] when it runs to its end, otherwise
    what [return points[i]] gives at the first hit. *)
Fixpoint halfway_scan (points : list TrackPoint) (halfway_distance : num)
  (items : list (nat * num)) : option (result TrackPoint) :=
  match items with
  | [] => None
  | (i, distance) :: items' =>
    if ge distance halfway_distance then Some (getitem points i)
    else halfway_scan points halfway_distance items'
  end.

Definition find_halfway_point (points : list TrackPoint)
  (distances : list num) (total_distance : num) : result TrackPoint :=
  match points with
  | [] => raise (ValueError "No points found in the track.")
  | _ :: _ =>
    let halfway_distance := div total_distance (of_int 2) in
    match halfway_scan points halfway_distance (enumerate distances) with
    | Some r => try_except "Error finding halfway point" r
    | None => getitem_last points     (* Fallback *)
    end
  end.

(** ** generate_waypoints *)

Definition waypoint : Type := (string * TrackPoint)%type.

(** The inner loop of lines 146-149, with its [break]. *)
Fixpoint km_scan (points : list TrackPoint) (prefix : string)
  (dist_marker : Z) (items : list (nat * num)) (waypoints : list waypoint)
  : result (list waypoint) :=
  match items with
  | [] => ret waypoints
  | (i, distance) :: items' =>
    if ge (mul distance (of_int 1000)) (of_int dist_marker) then
      p <- getitem points i ;;
      let label := prefix ++ "_KM" ++ str_int (dist_marker / 1000)%Z in
      ret (waypoints ++ [(label, p)])%list
    else km_scan points prefix dist_marker items' waypoints
  end.

(** [max(0, x)]: the first argument unless the second is greater. *)
Definition max_0 (x : num) : num :=
  if gt x (of_int 0) then x else of_int 0.

(** [sum(...)]: left to right, from the int [0]. *)
Definition sum (l : list num) : num := fold_left add l (of_int 0).

(** Lines 160 and 161: the generator expressions under [sum]. *)
Definition ascent_terms (points : list TrackPoint) : list num :=
  flat_map (fun i =>
    match nth_error points i, nth_error points (i - 1) with
    | Some cur, Some prev =>
      match elevation cur, elevation prev with
      | Some e, Some e' => [max_0 (sub e e')]
      | _, _ => []
      end
    | _, _ => []
    end) (range 1 (List.length points)).

Definition descent_terms (points : list TrackPoint) : list num :=
  flat_map (fun i =>
    match nth_error points i, nth_error points (i - 1) with
    | Some cur, Some prev =>
      match elevation cur, elevation prev with
      | Some e, Some e' => [max_0 (sub e' e)]
      | _, _ => []
      end
    | _, _ => []
    end) (range 1 (List.length points)).

Definition ascent (points : list TrackPoint) : num :=
  sum (ascent_terms points).

Definition descent (points : list TrackPoint) : num :=
  sum (descent_terms points).

(** [(p.elevation for p in points if p.elevation is not None)] *)
Definition elevations (points : list TrackPoint) : list num :=
  flat_map (fun p => match elevation p with
                     | Some e => [e]
                     | None => []
                     end) points.

(** [min(..., default=None)] and [max(..., default=None)] *)
Definition min_default (l : list num) : option num :=
  match l with
  | [] => None
  | x :: xs => Some (min_by (fun e => e) x xs)
  end.

Definition max_default (l : list num) : option num :=
  match l with
  | [] => None
  | x :: xs => Some (max_by (fun e => e) x xs)
  end.

(** Lines 136-175: everything between the renaming of the track and the
    writing of its comment.  This part reads the points and touches nothing
    of the document; it gives the waypoints and the telemetry block. *)
Definition waypoints_and_telemetry (points : list TrackPoint)
  (prefix : string) : result (list waypoint * string) :=
  match points with
  | [] => raise (ValueError "No track points available.")
  | _ :: _ =>
    '(total_distance, distances) <- calculate_distance points ;;
    (* Trail head and trail end. *)
    first <- getitem points 0 ;;
    last <- getitem_last points ;;
    let waypoints := [(prefix ++ "_TH", first); (prefix ++ "_TE", last)] in
    (* Distance markers every 1km *)
    stop <- int_of (mul total_distance (of_int 1000)) ;;
    waypoints <-
      for_each (range_step 1000 (stop + 1) 1000)
        (fun dist_marker waypoints =>
           km_scan points prefix dist_marker (enumerate distances) waypoints)
        waypoints ;;
    (* Highest & lowest points. *)
    '(highest, lowest) <- find_extreme_points points ;;
    let waypoints :=
      (waypoints ++ [((prefix ++ "_HGH")%string, highest);
                     ((prefix ++ "_LWT")%string, lowest)])%list in
    (* Halfway point. *)
    halfway <- find_halfway_point points distances total_distance ;;
    let waypoints :=
      (waypoints ++ [((prefix ++ "_HLF")%string, halfway)])%list in
    (* Calculate telemetry statistics. *)
    let num_points := List.length points in
    let ascent := ascent points in
    let descent := descent points in
    match min_default (elevations points), max_default (elevations points) with
    | Some min_altitude, Some max_altitude =>
      let telemetry_str :=
        "Total Distance: " ++ format_f 2 total_distance ++ " km" ++ nl ++
        "Number of Points: " ++ str_int (Z.of_nat num_points) ++ nl ++
        "Total Ascent: " ++ format_f 0 ascent ++ " m" ++ nl ++
        "Total Descent: " ++ format_f 0 descent ++ " m" ++ nl ++
        "Minimum Altitude: " ++ format_f 0 min_altitude ++ " m" ++ nl ++
        "Maximum Altitude: " ++ format_f 0 max_altitude ++ " m" in
      ret (waypoints, telemetry_str)
    | _, _ =>
      raise (ValueError
               "No valid elevation data found for telemetry statistics.")
    end
  end.

Definition set_name (prefix : string) (track : Track) : Track :=
  {| name := Some prefix;
     comment := comment track;
     segments := segments track |}.

Definition set_comment (telemetry_str : string) (track : Track) : Track :=
  {| name := name track;
     comment := Some telemetry_str;
     segments := segments track |}.

(** The document after the call, and what the call returned or raised.
    [track] is a reference to [gpx.tracks[0]]: the two assignments to its
    attributes change the document, whatever happens afterwards. *)
Definition generate_waypoints (gpx : GPX) (prefix : string)
  : GPX * result (list waypoint) :=
  match tracks gpx with
  | [] => (gpx, raise (ValueError "No valid track data found in GPX file."))
  | track :: others =>
    match segments track with
    | [] =>
      (gpx, raise (ValueError "No valid track data found in GPX file."))
    | segment :: _ =>
      (* track.name = prefix *)
      let track := set_name prefix track in
      let gpx := {| tracks := track :: others |} in
      match waypoints_and_telemetry (points segment) prefix with
      | inl e => (gpx, inl e)
      | inr (waypoints, telemetry_str) =>
        (* track.comment = telemetry_str *)
        let track := set_comment telemetry_str track in
        ({| tracks := track :: others |}, ret waypoints)
      end
    end
  end.

End Trailmark.

(** * The rest of the script

    [load_gpx] (lines 10-35), [save_combined_gpx] (lines 185-213),
    [validate_file_path] (lines 216-234), [validate_prefix] (lines 236-254)
    and [main] (lines 257-276).  What they ask of the operating system, of
    gpxpy, of [re] and of argparse is taken as a parameter:

      - [World] is the state of the file system;
      - [isfile] is [os.path.isfile];
      - [open_parse] is [open(file_path, 'r', encoding='utf-8')] followed by
        [gpxpy.parse]: the document, or the exception that either raised;
      - [write_xml] is the [with] block of lines 210-211, which opens the
        output file for writing and writes [combined_gpx.to_xml()]: the
        world afterwards, and the exception it raised, if any;
      - [word] is the class [\w] of [re] on one character. *)

(** What [load_gpx] and its collaborators raise: [FileNotFoundError], which
    has an [except] clause of its own, or one of the other exceptions. *)
Inductive raised : Type :=
| FileNotFoundError (msg : string)
| Raised (e : exception).

Definition str_raised (r : raised) : string :=
  match r with
  | FileNotFoundError msg => msg
  | Raised e => str e
  end.

(** [re.match(r'^\w+$', s)]: one or more word characters from the start of
    [s], up to its end or up to a newline that ends it, which is where [$]
    matches. *)
Fixpoint match_word_line (word : ascii -> bool) (s : string) : bool :=
  match s with
  | EmptyString => false
  | String c rest =>
    word c &&
    match rest with
    | EmptyString => true
    | String _ _ => String.eqb rest nl || match_word_line word rest
    end
  end.

(** How a run of [main] ends: argparse refuses the arguments (usage and
    error on stderr, exit status 2), or the script prints one line. *)
Inductive outcome : Type :=
| UsageError
| Printed (line : string).

Section Script.

Context {number : PyNumber}.
Variable geod_inv : num -> num -> num -> num -> result num.
Variable format_f : nat -> num -> string.

(** [gpxpy.gpx.GPXWaypoint], with the four attributes that line 201 sets. *)
Record GPXWaypoint : Type := {
  wpt_latitude : num;
  wpt_longitude : num;
  wpt_elevation : option num;
  wpt_name : option string
}.

(** The [gpxpy.gpx.GPX()] that [save_combined_gpx] fills in. *)
Record CombinedGPX : Type := {
  combined_tracks : list Track;
  combined_waypoints : list GPXWaypoint
}.

Variable World : Type.
Variable isfile : string -> World -> bool.
Variable open_parse : string -> World -> raised + GPX.
Variable write_xml : CombinedGPX -> string -> World -> World * result unit.
Variable word : ascii -> bool.

(** ** load_gpx *)

Definition load_gpx (file_path : string) (w : World) : raised + GPX :=
  let body :=
    match open_parse file_path w with
    | inl e => inl e
    | inr gpx =>
      match tracks gpx with
      | [] => inl (Raised (ValueError "No valid track data found in GPX file."))
      | track :: _ =>
        match segments track with
        | [] =>
          inl (Raised (ValueError "No valid track data found in GPX file."))
        | _ :: _ => inr gpx
        end
      end
    end in
  match body with
  | inr gpx => inr gpx
  | inl (FileNotFoundError _) =>
    inl (FileNotFoundError
           ("Error: The file '" ++ file_path ++ "' was not found."))
  | inl (Raised (ValueError ve)) =>
    inl (Raised (ValueError ("Error parsing GPX file: " ++ ve)))
  | inl (Raised e) =>
    inl (Raised (RuntimeError ("Error loading GPX file: " ++ str e)))
  end.

(** ** save_combined_gpx *)

(** Lines 194-207: the two loops that fill the new document. *)
Definition combined_gpx (gpx : GPX) (waypoints : list waypoint)
  : CombinedGPX :=
  let all_tracks :=
    fold_left (fun combined track => (combined ++ [track])%list)
              (tracks gpx) [] in
  let wpts :=
    fold_left
      (fun combined '(name, point) =>
         (combined ++ [ {| wpt_latitude := latitude point;
                           wpt_longitude := longitude point;
                           wpt_elevation := elevation point;
                           wpt_name := Some name |} ])%list)
      waypoints [] in
  {| combined_tracks := all_tracks; combined_waypoints := wpts |}.

Definition save_combined_gpx (gpx : GPX) (waypoints : list waypoint)
  (output_file : string) (w : World) : World * result unit :=
  let '(w, written) := write_xml (combined_gpx gpx waypoints) output_file w in
  (w, try_except "Error saving combined GPX" written).

(** ** validate_file_path and validate_prefix *)

Definition validate_file_path (file_path : string) (w : World)
  : result string :=
  if isfile file_path w then ret file_path
  else raise (ValueError ("Invalid file path: " ++ file_path)).

Definition validate_prefix (prefix : string) : result string :=
  if match_word_line word prefix then ret prefix
  else raise (ValueError
                ("Invalid prefix: " ++ prefix ++
                 ". Only alphanumeric characters and underscores are allowed.")).

(** ** main *)

(** The three positional arguments are converted in their order; argparse
    turns the [ValueError] of a converter into a usage error.  The second
    argument has no converter. *)
Definition main (input_gpx output_gpx trail_prefix : string) (w : World)
  : World * outcome :=
  match validate_file_path input_gpx w with
  | inl _ => (w, UsageError)
  | inr input_gpx =>
    match validate_prefix trail_prefix with
    | inl _ => (w, UsageError)
    | inr trail_prefix =>
      match load_gpx input_gpx w with
      | inl e => (w, Printed ("Unexpected error: " ++ str_raised e))
      | inr gpx_data =>
        let '(gpx_data, waypoints) :=
          generate_waypoints geod_inv format_f gpx_data trail_prefix in
        match waypoints with
        | inl e => (w, Printed ("Unexpected error: " ++ str e))
        | inr waypoints =>
          let '(w, saved) :=
            save_combined_gpx gpx_data waypoints output_gpx w in
          match saved with
          | inl e => (w, Printed ("Unexpected error: " ++ str e))
          | inr _ =>
            (w, Printed ("GPX file with waypoints saved: " ++ output_gpx))
          end
        end
      end
    end
  end.

End Script.

(** * Notions of the statements *)

(** Consecutive pairs [(l[i-1], l[i])], in the order of the index. *)
Definition consecutive {A} (l : list A) : list (A * A) := combine l (tl l).

(** [i] is the first index of [l] whose item passes [test]. *)
Definition first_such {A} (test : A -> bool) (l : list A) (i : nat) : Prop :=
  (exists a, nth_error l i = Some a /\ test a = true) /\
  (forall j a, (j < i)%nat -> nth_error l j = Some a -> test a = false).

(** [EmptyTrack]: the two [ValueError]s that the script raises for a track
    without points, in [calculate_distance] and in [generate_waypoints]. *)
Definition EmptyTrackError (e : exception) : Prop :=
  e = ValueError "No points found in the track." \/
  e = ValueError "No track points available.".

(** [NoElevationData]: raised by [find_extreme_points]. *)
Definition NoElevationDataError : exception :=
  ValueError "No valid elevation data found.".

(** The suffix of a marker's label. *)
Definition km_suffix (dist_marker : Z) : string :=
  "_KM" ++ str_int (dist_marker / 1000)%Z.

(** The suffixes of a run with the markers [hits]. *)
Definition suffixes (hits : list Z) : list string :=
  (["_TH"; "_TE"] ++ map km_suffix hits ++ ["_HGH"; "_LWT"; "_HLF"])%list.



Section Notions.

Context {number : PyNumber}.
Variable geod_inv : num -> num -> num -> num -> result num.

(** The call of line 57 on two points. *)
Definition geod_between (p q : TrackPoint) : result num :=
  geod_inv (longitude p) (latitude p) (longitude q) (latitude q).

(** The loop of [calculate_distance] as a walk from [prev] along [rest]:
    what it returns from the running total and the distances so far. *)
Fixpoint accumulate (prev : TrackPoint) (rest : list TrackPoint)
  (total_distance : num) (distances : list num) : result (num * list num) :=
  match rest with
  | [] => ret (total_distance, distances)
  | cur :: rest' =>
    distance <- geod_between prev cur ;;
    let total_distance := add total_distance (div distance (of_int 1000)) in
    accumulate cur rest' total_distance (distances ++ [total_distance])%list
  end.

(** [i] is the first index of [distances] whose entry is [>= bound]. *)
Definition first_reaching (distances : list num) (bound : num) (i : nat)
  : Prop :=
  first_such (fun d => ge d bound) distances i.

(** The elevations [(e', e)] of the consecutive pairs [(prev, cur)] of which
    both points carry one, in the order of the track. *)
Definition present_pairs (points : list TrackPoint) : list (num * num) :=
  flat_map (fun pq => match elevation (fst pq), elevation (snd pq) with
                      | Some e', Some e => [(e', e)]
                      | _, _ => []
                      end) (consecutive points).

(** The shape the two generator expressions share: [h e e'] for every index
    whose point and whose predecessor carry the elevations [e] and [e']. *)
Definition pair_terms (h : num -> num -> num) (points : list TrackPoint)
  : list num :=
  flat_map (fun i =>
    match nth_error points i, nth_error points (i - 1) with
    | Some cur, Some prev =>
      match elevation cur, elevation prev with
      | Some e, Some e' => [h e e']
      | _, _ => []
      end
    | _, _ => []
    end) (range 1 (List.length points)).

(** The test of line 147. *)
Definition reaches (dist_marker : Z) (distance : num) : bool :=
  ge (mul distance (of_int 1000)) (of_int dist_marker).

(** The label of line 148. *)
Definition km_label (prefix : string) (dist_marker : Z) : string :=
  prefix ++ "_KM" ++ str_int (dist_marker / 1000)%Z.

(** [wp] is the waypoint of [dist_marker]: it has its label and the first
    point whose cumulative distance passes the test. *)
Definition marker_of (points : list TrackPoint) (prefix : string)
  (distances : list num) (dist_marker : Z) (wp : waypoint) : Prop :=
  fst wp = km_label prefix dist_marker /\
  exists i, first_such (reaches dist_marker) distances i /\
            nth_error points i = Some (snd wp).

(** The waypoints that [waypoints_and_telemetry] builds from the results of
    its callees, for the markers [hits] that some distance reaches. *)
Definition waypoints_of (prefix : string) (first last : TrackPoint)
  (kms : list waypoint) (highest lowest halfway : TrackPoint)
  : list waypoint :=
  let TH := prefix ++ "_TH" in
  let TE := prefix ++ "_TE" in
  let HGH := prefix ++ "_HGH" in
  let LWT := prefix ++ "_LWT" in
  let HLF := prefix ++ "_HLF" in
  ([(TH, first); (TE, last)] ++ kms ++
   [(HGH, highest); (LWT, lowest); (HLF, halfway)])%list.

(** The markers of the outer loop that some cumulative distance reaches. *)
Definition reached_markers (ds : list num) (stop : Z) : list Z :=
  filter (fun dist_marker => existsb (reaches dist_marker) ds)
         (range_step 1000 (stop + 1) 1000).

End Notions.

(** ** Notions of the exact instance *)

Section Order.

Context {A : Type} (key : A -> @num Q_number).



End Order.





(** ** Notions of the further statements *)

(** The test of line 79. *)
Definition has_elevation {number : PyNumber} (p : TrackPoint) : bool :=
  match elevation p with
  | Some _ => true
  | None => false
  end.

(** Every character of [s] passes [test]. *)
Fixpoint every (test : ascii -> bool) (s : string) : bool :=
  match s with
  | EmptyString => true
  | String c rest => test c && every test rest
  end.

(** [s] is a non-empty string of word characters, or such a string and a
    newline after it. *)
Definition word_line (word : ascii -> bool) (s : string) : Prop :=
  exists body,
    body <> EmptyString /\ every word body = true /\
    (s = body \/ s = body ++ nl).


(** ** Sample collaborators and tracks *)

(** A stand-in for the geodesic routine on the exact instance: 100 km per
    degree along each axis, in metres. *)
Definition grid_inv (lon1 lat1 lon2 lat2 : @num Q_number)
  : result (@num Q_number) :=
  ret (Qabs (lon2 - lon1) * 100000 + Qabs (lat2 - lat1) * 100000)%Q.

(** A geodesic routine that raises on every call. *)
Definition broken_inv (lon1 lat1 lon2 lat2 : @num Q_number)
  : result (@num Q_number) :=
  raise (OtherError "inv failed").

(** A stand-in for the float formatting of f-strings. *)
Definition plain_format (digits : nat) (x : @num Q_number) : string :=
  str_int (Qfloor x).

Definition point (lat lon : Q) (e : option Q) : @TrackPoint Q_number :=
  {| latitude := lat; longitude := lon; elevation := e |}.

Definition document (name : option string) (points : list (@TrackPoint Q_number))
  : @GPX Q_number :=
  {| tracks := [ {| name := name; comment := None;
                    segments := [ {| points := points |} ] |} ] |}.

(** Three points, 2.4 km on the grid: cumulative distances 0, 1, 2.4. *)
Definition ridge : list (@TrackPoint Q_number) :=
  [ point 0 0 (Some 0); point 0 0.01 (Some 10); point 0 0.024 (Some 5) ]%Q.

(** Five points, one without elevation, two at the same top height. *)
Definition saddle : list (@TrackPoint Q_number) :=
  [ point 0 0 (Some 3); point 0 0.004 (Some 8); point 0 0.008 None;
    point 0 0.012 (Some 8); point 0 0.02 (Some 3) ]%Q.

(** A geodesic routine that raises east of 0.02 degrees. *)
Definition fragile_inv (lon1 lat1 lon2 lat2 : @num Q_number)
  : result (@num Q_number) :=
  if Qle_bool lon2 0.02 then grid_inv lon1 lat1 lon2 lat2
  else raise (OtherError "out of bounds").

(** [\w] on the ASCII characters: letters, digits and the underscore. *)
Definition ascii_word (c : ascii) : bool :=
  let n := nat_of_ascii c in
  ((48 <=? n) && (n <=? 57) || (65 <=? n) && (n <=? 90) ||
   (97 <=? n) && (n <=? 122) || (n =? 95))%nat.

(** A file system for the runs of [main]: what opening and parsing each
    file gives, and the documents written so far. *)
Record disk : Type := {
  files : list (string * (raised + @GPX Q_number));
  written : list (string * @CombinedGPX Q_number)
}.

Definition disk_isfile (path : string) (d : disk) : bool :=
  existsb (fun f => String.eqb (fst f) path) (files d).

Definition disk_open_parse (path : string) (d : disk)
  : raised + @GPX Q_number :=
  match find (fun f => String.eqb (fst f) path) (files d) with
  | Some f => snd f
  | None => inl (FileNotFoundError "No such file or directory")
  end.

Definition disk_write_xml (combined : @CombinedGPX Q_number) (path : string)
  (d : disk) : disk * result unit :=
  ({| files := files d; written := (path, combined) :: written d |}, ret tt).

(** A disk that refuses every write, after creating the file. *)
Definition disk_write_fails (combined : @CombinedGPX Q_number)
  (path : string) (d : disk) : disk * result unit :=
  ({| files := (path, inl (Raised (OtherError "empty"))) :: files d;
      written := written d |},
   raise (OtherError "No space left on device")).

Definition sample_disk : disk :=
  {| files := [ ("ridge.gpx", inr (document None ridge));
                ("flat.gpx",
                 inr (document None [point 0 0 None; point 0 0.01 None]%Q));
                ("empty.gpx", inr (@Build_GPX Q_number []));
                ("broken.gpx", inl (Raised (OtherError "mismatched tag"))) ];
     written := [] |}.

(** The same grid and the same track in binary64. *)
Definition float_grid_inv (lon1 lat1 lon2 lat2 : @num float64_number)
  : result (@num float64_number) :=
  ret (PrimFloat.add
         (PrimFloat.mul (PrimFloat.abs (PrimFloat.sub lon2 lon1))
                        (float_of_int 100000))
         (PrimFloat.mul (PrimFloat.abs (PrimFloat.sub lat2 lat1))
                        (float_of_int 100000))).

(** A geodesic routine that answers with an infinite distance. *)
Definition float_far_inv (lon1 lat1 lon2 lat2 : @num float64_number)
  : result (@num float64_number) :=
  ret PrimFloat.infinity.

Definition float_format (digits : nat) (x : @num float64_number) : string :=
  match int_of_float x with
  | inr n => str_int n
  | inl _ => "nan"
  end.

(** [n / d] in binary64. *)
Definition ratio (n d : Z) : float :=
  PrimFloat.div (float_of_int n) (float_of_int d).

Definition float_point (lat lon : float) (e : option float)
  : @TrackPoint float64_number :=
  @Build_TrackPoint float64_number lat lon e.

Definition float_ridge : list (@TrackPoint float64_number) :=
  [ float_point (ratio 0 1) (ratio 0 1) (Some (ratio 0 1));
    float_point (ratio 0 1) (ratio 1 100) (Some (ratio 10 1));
    float_point (ratio 0 1) (ratio 24 1000) (Some (ratio 5 1)) ].

Definition float_document (points : list (@TrackPoint float64_number))
  : @GPX float64_number :=
  @Build_GPX float64_number
    [ @Build_Track float64_number None None
        [ @Build_Segment float64_number points ] ].

(** * Properties *)

(** ** Lists, loops and results *)

Lemma getitem_last_snoc {A} (l : list A) (a : A) :
  getitem_last (l ++ [a])%list = ret a.
Proof.
  unfold getitem_last. rewrite rev_unit. reflexivity.
Qed.

Lemma getitem_last_cons {A} (a : A) (l : list A) :
  getitem_last (a :: l) = ret (List.last l a).
Proof.
  revert a. induction l as [|b l IH] using rev_ind; intros a.
  - reflexivity.
  - change (a :: l ++ [b])%list with ((a :: l) ++ [b])%list.
    rewrite getitem_last_snoc, last_last. reflexivity.
Qed.

Lemma getitem_middle {A} (pre : list A) (a : A) (post : list A) :
  getitem (pre ++ a :: post)%list (List.length pre) = ret a.
Proof.
  unfold getitem. rewrite nth_error_app2 by lia.
  rewrite Nat.sub_diag. reflexivity.
Qed.

Lemma getitem_lt {A} (l : list A) (i : nat) :
  (i < List.length l)%nat -> exists a, getitem l i = ret a /\ nth_error l i = Some a.
Proof.
  intros Hi. unfold getitem.
  destruct (nth_error l i) as [a|] eqn:E.
  - exists a. split; reflexivity.
  - apply nth_error_None in E. lia.
Qed.

Lemma try_except_inr {A} (what : string) (c : result A) (a : A) :
  try_except what c = inr a <-> c = inr a.
Proof.
  unfold try_except, ret, raise. destruct c; split; congruence.
Qed.

Lemma try_except_ValueError {A} (what : string) (c : result A) (msg : string) :
  try_except what c <> inl (ValueError msg).
Proof.
  unfold try_except, ret, raise. destruct c; congruence.
Qed.

Lemma bind_inr {A B} (c : result A) (k : A -> result B) (b : B) :
  bind c k = inr b <-> exists a, c = inr a /\ k a = inr b.
Proof.
  unfold bind. destruct c as [e|a]; split.
  - discriminate.
  - intros (a & Ha & _). discriminate.
  - intros H. exists a. split; [reflexivity | assumption].
  - intros (a' & Ha & Hk). injection Ha as ->. assumption.
Qed.

Lemma consecutive_cons2 {A} (a b : A) (l : list A) :
  consecutive (a :: b :: l) = (a, b) :: consecutive (b :: l).
Proof. reflexivity. Qed.

Lemma first_such_here {A} (test : A -> bool) (a : A) (l : list A) :
  test a = true -> first_such test (a :: l) 0.
Proof.
  intros H. split.
  - exists a. split; [reflexivity | exact H].
  - intros j b Hj. lia.
Qed.

Lemma first_such_later {A} (test : A -> bool) (a : A) (l : list A) (i : nat) :
  test a = false -> first_such test l i -> first_such test (a :: l) (S i).
Proof.
  intros H [Hi Hbefore]. split.
  - exact Hi.
  - intros [|j] b Hj Hb.
    + cbn in Hb. injection Hb as <-. exact H.
    + apply (Hbefore j b); [lia | exact Hb].
Qed.


Lemma first_such_lt {A} (test : A -> bool) (l : list A) (i : nat) :
  first_such test l i -> (i < List.length l)%nat.
Proof.
  intros [(a & Ha & _) _]. apply nth_error_Some. congruence.
Qed.

Section Generic.

Context {number : PyNumber}.
Variable geod_inv : num -> num -> num -> num -> result num.
Variable format_f : nat -> num -> string.

(** ** calculate_distance, as a walk over consecutive points *)

Lemma distance_loop_accumulate (rest pre : list TrackPoint)
  (prev : TrackPoint) (total : num) (ds : list num) :
  for_each (seq (S (List.length pre)) (List.length rest))
           (distance_step geod_inv (pre ++ prev :: rest)%list) (total, ds)
  = accumulate geod_inv prev rest total ds.
Proof.
  revert pre prev total ds.
  induction rest as [|cur rest IH]; intros pre prev total ds.
  - reflexivity.
  - cbn [List.length seq for_each accumulate].
    unfold distance_step at 1.
    replace (S (List.length pre) - 1)%nat with (List.length pre) by lia.
    rewrite getitem_middle. cbn [bind ret].
    replace (pre ++ prev :: cur :: rest)%list
      with ((pre ++ [prev]) ++ cur :: rest)%list
      by (rewrite <- app_assoc; reflexivity).
    replace (S (List.length pre)) with (List.length (pre ++ [prev])%list)
      by (rewrite length_app; cbn; lia).
    rewrite getitem_middle. cbn [bind ret].
    unfold geod_between.
    destruct (geod_inv _ _ _ _) as [e|distance]; [reflexivity|].
    cbn [bind]. apply IH.
Qed.

Lemma calculate_distance_cons (p : TrackPoint) (ps : list TrackPoint) :
  calculate_distance geod_inv (p :: ps)
  = try_except "Error calculating distance"
      (accumulate geod_inv p ps (of_int 0) [of_int 0]).
Proof.
  unfold calculate_distance, range. f_equal.
  cbn [List.length]. rewrite Nat.sub_succ, Nat.sub_0_r.
  apply (distance_loop_accumulate ps [] p).
Qed.

Lemma accumulate_shape (rest : list TrackPoint) :
  forall prev total ds total' ds',
    accumulate geod_inv prev rest total ds = inr (total', ds') ->
    exists tail,
      ds' = (ds ++ tail)%list /\
      List.length tail = List.length rest /\
      (getitem_last ds = ret total -> getitem_last ds' = ret total').
Proof.
  induction rest as [|cur rest IH]; intros prev total ds total' ds' H.
  - cbn in H. injection H as <- <-. exists []. rewrite app_nil_r. auto.
  - cbn [accumulate] in H. apply bind_inr in H as (d & _ & H).
    apply IH in H as (tail & -> & Hlen & Hlast).
    exists (add total (div d (of_int 1000)) :: tail). repeat split.
    + rewrite <- app_assoc. reflexivity.
    + cbn. lia.
    + intros _. apply Hlast, getitem_last_snoc.
Qed.

Lemma accumulate_succeeds (rest : list TrackPoint) :
  forall prev total ds,
    Forall (fun pq => exists d, geod_between geod_inv (fst pq) (snd pq) = inr d)
           (consecutive (prev :: rest)) ->
    exists total' ds',
      accumulate geod_inv prev rest total ds = inr (total', ds').
Proof.
  induction rest as [|cur rest IH]; intros prev total ds H.
  - eexists _, _. reflexivity.
  - rewrite consecutive_cons2 in H. inversion H as [|? ? [d Hd] Hrest]; subst.
    cbn [fst snd] in Hd. cbn [accumulate]. rewrite Hd. cbn [bind].
    apply IH, Hrest.
Qed.

End Generic.

(** ** The distance accumulator and the empty track *)

Section Accumulator.

Context {number : PyNumber}.
Variable geod_inv : num -> num -> num -> num -> result num.
Variable format_f : nat -> num -> string.

(** C2.  Whenever the distance accumulator returns, the last entry of the
    cumulative distances is the returned total, the very same value; and it
    does return on every non-empty sequence of points on whose consecutive
    pairs the geodesic routine answers. *)
Theorem total_is_last_distance (points : list TrackPoint) :
  (forall total ds,
      calculate_distance geod_inv points = inr (total, ds) ->
      getitem_last ds = ret total) /\
  (points <> [] ->
   Forall (fun pq => exists d, geod_between geod_inv (fst pq) (snd pq) = inr d)
          (consecutive points) ->
   exists total ds, calculate_distance geod_inv points = inr (total, ds)).
Proof.
  destruct points as [|p ps].
  - split; [discriminate | intros H; contradiction H; reflexivity].
  - rewrite calculate_distance_cons. split.
    + intros total ds H. apply try_except_inr in H.
      apply accumulate_shape in H as (tail & _ & _ & Hlast).
      apply Hlast. reflexivity.
    + intros _ H.
      destruct (accumulate_succeeds geod_inv ps p (of_int 0) [of_int 0] H)
        as (total & ds & E).
      exists total, ds. apply try_except_inr. exact E.
Qed.

(** C9.  [calculate_distance] raises the empty-track error exactly on the
    empty sequence, and [generate_waypoints] raises it when the first
    segment of the first track has no point. *)
Theorem empty_track_errors :
  (forall points : list TrackPoint,
      (exists e, calculate_distance geod_inv points = inl e /\
                 EmptyTrackError e) <-> points = []) /\
  (forall (gpx : GPX) prefix track others segment segs,
      tracks gpx = track :: others ->
      segments track = segment :: segs ->
      points segment = [] ->
      exists e, snd (generate_waypoints geod_inv format_f gpx prefix) = inl e /\
                EmptyTrackError e).
Proof.
  split.
  - intros pts. split.
    + intros (e & H & [He|He]); subst e; destruct pts as [|p ps]; try reflexivity;
        rewrite calculate_distance_cons in H;
        exfalso; exact (try_except_ValueError _ _ _ H).
    + intros ->. eexists. split; [reflexivity | left; reflexivity].
  - intros gpx prefix track others segment segs Ht Hs Hp.
    unfold generate_waypoints. rewrite Ht, Hs, Hp. cbn.
    eexists. split; [reflexivity | right; reflexivity].
Qed.

(** C10.  On a document whose first track has a first segment without
    points, [generate_waypoints] raises the empty-track error and gives the
    document back with the first track renamed to the prefix: unless the
    track already had that name, the document has changed. *)
Theorem empty_segment_renames_track (gpx : GPX) (prefix : string)
  (track : Track) (others : list Track) (segment : Segment)
  (segs : list Segment) :
  tracks gpx = track :: others ->
  segments track = segment :: segs ->
  points segment = [] ->
  generate_waypoints geod_inv format_f gpx prefix
  = ({| tracks := set_name prefix track :: others |},
     raise (ValueError "No track points available.")) /\
  (name track <> Some prefix ->
   fst (generate_waypoints geod_inv format_f gpx prefix) <> gpx).
Proof.
  intros Ht Hs Hp.
  assert (E : generate_waypoints geod_inv format_f gpx prefix
              = ({| tracks := set_name prefix track :: others |},
                 raise (ValueError "No track points available."))).
  { unfold generate_waypoints. rewrite Ht, Hs, Hp. reflexivity. }
  split; [exact E|].
  intros Hname Heq. rewrite E in Heq. cbn [fst] in Heq.
  apply (f_equal tracks) in Heq. cbn [tracks] in Heq. rewrite Ht in Heq.
  injection Heq as Heq. apply (f_equal name) in Heq. cbn in Heq.
  apply Hname. symmetry. exact Heq.
Qed.

End Accumulator.

Lemma total_is_last_distance_witness :
  exists total ds,
    calculate_distance grid_inv ridge = inr (total, ds) /\
    getitem_last ds = ret total.
Proof.
  destruct (total_is_last_distance grid_inv ridge) as [Hlast Hret].
  destruct Hret as (total & ds & E).
  - discriminate.
  - repeat constructor; eexists; reflexivity.
  - exists total, ds. split; [exact E | exact (Hlast total ds E)].
Defined.

Lemma empty_track_errors_witness :
  exists e,
    snd (generate_waypoints grid_inv plain_format (document None []) "RIDGE")
    = inl e /\ EmptyTrackError e.
Proof.
  destruct (empty_track_errors grid_inv plain_format) as [_ H].
  eapply H; reflexivity.
Defined.

Lemma empty_segment_renames_track_witness :
  generate_waypoints grid_inv plain_format (document None []) "RIDGE"
  = (document (Some "RIDGE") [],
     raise (ValueError "No track points available.")) /\
  fst (generate_waypoints grid_inv plain_format (document None []) "RIDGE")
  <> document None [].
Proof.
  destruct (empty_segment_renames_track grid_inv plain_format
              (document None []) "RIDGE" _ _ _ _ eq_refl eq_refl eq_refl)
    as [E Hne].
  split; [exact E | apply Hne; discriminate].
Defined.

(** ** Monotone distances, in exact arithmetic *)


Section Exact.

Variable geod_inv : @num Q_number -> @num Q_number -> @num Q_number ->
                    @num Q_number -> result (@num Q_number).
Variable format_f : nat -> @num Q_number -> string.



End Exact.


(** ** find_halfway_point *)

Section Halfway.

Context {number : PyNumber}.

Lemma halfway_scan_enumerate (points : list TrackPoint) (bound : num)
  (ds : list num) :
  forall k,
    (exists i, first_reaching ds bound i /\
               halfway_scan points bound (combine (seq k (List.length ds)) ds)
               = Some (getitem points (k + i))) \/
    (Forall (fun d => ge d bound = false) ds /\
     halfway_scan points bound (combine (seq k (List.length ds)) ds) = None).
Proof.
  induction ds as [|d ds IH]; intros k.
  - right. split; [constructor | reflexivity].
  - cbn [List.length seq combine halfway_scan].
    destruct (ge d bound) eqn:E.
    + left. exists 0%nat. rewrite Nat.add_0_r.
      split; [apply first_such_here; exact E | reflexivity].
    + destruct (IH (S k)) as [(i & Hi & Hscan) | (Hall & Hscan)].
      * left. exists (S i). rewrite Nat.add_succ_r.
        split; [apply first_such_later; assumption | exact Hscan].
      * right. split; [constructor; assumption | exact Hscan].
Qed.

(** C7.  On a non-empty sequence of points with as many cumulative
    distances, the halfway-point finder returns a point and never raises:
    the point at the first index whose distance is [>= total / 2], or, when
    no distance reaches that bound, the last point. *)
Theorem halfway_point_first_or_last (points : list TrackPoint)
  (distances : list num) (total_distance : num) :
  points <> [] ->
  List.length distances = List.length points ->
  let halfway_distance := div total_distance (of_int 2) in
  (exists i p,
      first_reaching distances halfway_distance i /\
      nth_error points i = Some p /\
      find_halfway_point points distances total_distance = ret p) \/
  (Forall (fun d => ge d halfway_distance = false) distances /\
   exists before p,
      points = (before ++ [p])%list /\
      find_halfway_point points distances total_distance = ret p).
Proof.
  intros Hne Hlen half.
  destruct points as [|p0 ps]; [contradiction Hne; reflexivity|].
  unfold find_halfway_point, enumerate. fold half.
  destruct (halfway_scan_enumerate (p0 :: ps) half distances 0)
    as [(i & Hi & Hscan) | (Hall & Hscan)]; rewrite Hscan.
  - left. cbn [Nat.add].
    assert (Hlt : (i < List.length (p0 :: ps))%nat).
    { destruct Hi as [(d & Hd & _) _]. rewrite <- Hlen.
      apply nth_error_Some. congruence. }
    destruct (getitem_lt (p0 :: ps) i Hlt) as (p & Hget & Hnth).
    exists i, p. rewrite Hget. repeat split; try assumption; apply Hi.
  - right. split; [exact Hall|].
    destruct (exists_last Hne) as (before & p & Heq).
    exists before, p. split; [exact Heq|].
    rewrite Heq. apply getitem_last_snoc.
Qed.

End Halfway.

Lemma halfway_point_first_or_last_witness :
  (exists i p,
      first_reaching [0; 1; 2.4]%Q (2.4 / 2)%Q i /\
      nth_error ridge i = Some p /\
      find_halfway_point ridge [0; 1; 2.4]%Q 2.4%Q = ret p) \/
  (Forall (fun d => Qle_bool (2.4 / 2) d = false) [0; 1; 2.4]%Q /\
   exists before p,
      ridge = (before ++ [p])%list /\
      find_halfway_point ridge [0; 1; 2.4]%Q 2.4%Q = ret p).
Proof.
  apply (halfway_point_first_or_last ridge [0; 1; 2.4]%Q 2.4%Q).
  - discriminate.
  - reflexivity.
Defined.

(** ** find_extreme_points *)

Section Extremes.




Context {A : Type} (key : A -> @num Q_number).



End Extremes.

Section ValidPoints.

Context {number : PyNumber}.

Lemma valid_points_cons (p : TrackPoint) (l : list TrackPoint) :
  valid_points (p :: l)
  = match elevation p with
    | Some e => (p, e) :: valid_points l
    | None => valid_points l
    end.
Proof.
  unfold valid_points. cbn [flat_map]. destruct (elevation p); reflexivity.
Qed.




End ValidPoints.



(** ** Ascent and descent *)

Section Climb.

Context {number : PyNumber}.

Lemma pair_terms_walk (h : num -> num -> num) (rest pre : list TrackPoint)
  (prev : TrackPoint) :
  flat_map (fun i =>
    match nth_error (pre ++ prev :: rest)%list i,
          nth_error (pre ++ prev :: rest)%list (i - 1) with
    | Some cur, Some prev =>
      match elevation cur, elevation prev with
      | Some e, Some e' => [h e e']
      | _, _ => []
      end
    | _, _ => []
    end) (seq (S (List.length pre)) (List.length rest))
  = map (fun ee => h (snd ee) (fst ee)) (present_pairs (prev :: rest)).
Proof.
  revert pre prev. induction rest as [|cur rest IH]; intros pre prev.
  - reflexivity.
  - cbn [List.length seq flat_map]. unfold present_pairs.
    rewrite consecutive_cons2. cbn [flat_map fst snd]. rewrite map_app.
    fold (present_pairs (cur :: rest)).
    replace (S (List.length pre) - 1)%nat with (List.length pre) by lia.
    f_equal.
    + replace (nth_error (pre ++ prev :: cur :: rest)%list (List.length pre))
        with (Some prev)
        by (rewrite nth_error_app2, Nat.sub_diag by lia; reflexivity).
      replace (nth_error (pre ++ prev :: cur :: rest)%list
                         (S (List.length pre)))
        with (Some cur).
      * destruct (elevation cur), (elevation prev); reflexivity.
      * rewrite nth_error_app2 by lia.
        replace (S (List.length pre) - List.length pre)%nat with 1%nat by lia.
        reflexivity.
    + specialize (IH (pre ++ [prev])%list cur).
      rewrite <- app_assoc, length_app in IH. cbn [List.length app] in IH.
      rewrite Nat.add_1_r in IH. exact IH.
Qed.

Lemma pair_terms_present (h : num -> num -> num) (points : list TrackPoint) :
  pair_terms h points
  = map (fun ee => h (snd ee) (fst ee)) (present_pairs points).
Proof.
  destruct points as [|p ps]; [reflexivity|].
  unfold pair_terms, range. cbn [List.length].
  rewrite Nat.sub_succ, Nat.sub_0_r.
  apply (pair_terms_walk h ps [] p).
Qed.

Lemma consecutive_app (pre : list TrackPoint) (prev cur : TrackPoint)
  (post : list TrackPoint) :
  consecutive (pre ++ prev :: cur :: post)
  = (consecutive (pre ++ [prev]) ++ (prev, cur) :: consecutive (cur :: post))%list.
Proof.
  induction pre as [|a pre IH].
  - reflexivity.
  - destruct pre as [|b pre].
    + reflexivity.
    + cbn [app] in *. rewrite !consecutive_cons2, IH. reflexivity.
Qed.

Lemma present_pairs_missing (pre : list TrackPoint) (prev cur : TrackPoint)
  (post : list TrackPoint) :
  elevation prev = None \/ elevation cur = None ->
  present_pairs (pre ++ prev :: cur :: post)
  = (present_pairs (pre ++ [prev]) ++ present_pairs (cur :: post))%list.
Proof.
  intros H. unfold present_pairs. rewrite consecutive_app, flat_map_app.
  f_equal. cbn [flat_map fst snd].
  destruct H as [-> | ->]; [|destruct (elevation prev)]; reflexivity.
Qed.

(** C5.  The ascent and the descent are sums over the consecutive pairs of
    which both points carry an elevation, of [max(0, e - e')] and of
    [max(0, e' - e)]; a pair with a missing elevation adds nothing: the
    running sums past it are what they were before it. *)
Theorem climb_skips_missing_elevation (points : list TrackPoint) :
  ascent points
  = sum (map (fun ee => max_0 (sub (snd ee) (fst ee))) (present_pairs points))
  /\
  descent points
  = sum (map (fun ee => max_0 (sub (fst ee) (snd ee))) (present_pairs points))
  /\
  (forall pre prev cur post,
      points = (pre ++ prev :: cur :: post)%list ->
      elevation prev = None \/ elevation cur = None ->
      ascent points
      = fold_left add (ascent_terms (cur :: post)) (ascent (pre ++ [prev])) /\
      descent points
      = fold_left add (descent_terms (cur :: post)) (descent (pre ++ [prev]))).
Proof.
  assert (Ha : forall l, ascent_terms l
    = map (fun ee => max_0 (sub (snd ee) (fst ee))) (present_pairs l)).
  { intros l. apply (pair_terms_present (fun e e' => max_0 (sub e e'))). }
  assert (Hd : forall l, descent_terms l
    = map (fun ee => max_0 (sub (fst ee) (snd ee))) (present_pairs l)).
  { intros l. apply (pair_terms_present (fun e e' => max_0 (sub e' e))). }
  unfold ascent, descent. rewrite Ha, Hd.
  split; [reflexivity|]. split; [reflexivity|].
  intros pre prev cur post -> Hmissing.
  rewrite !Ha, !Hd, (present_pairs_missing _ _ _ _ Hmissing), !map_app.
  unfold sum. rewrite !fold_left_app. split; reflexivity.
Qed.

End Climb.

Lemma climb_skips_missing_elevation_witness :
  ascent saddle
  = fold_left Qplus (ascent_terms [point 0 0.008 None; point 0 0.012 (Some 8);
                                   point 0 0.02 (Some 3)]%Q)
              (ascent [point 0 0 (Some 3); point 0 0.004 (Some 8)]%Q) /\
  descent saddle
  = fold_left Qplus (descent_terms [point 0 0.008 None; point 0 0.012 (Some 8);
                                    point 0 0.02 (Some 3)]%Q)
              (descent [point 0 0 (Some 3); point 0 0.004 (Some 8)]%Q).
Proof.
  destruct (climb_skips_missing_elevation saddle) as (_ & _ & H).
  apply (H [point 0 0 (Some 3)]%Q (point 0 0.004 (Some 8))%Q
           (point 0 0.008 None)%Q
           [point 0 0.012 (Some 8); point 0 0.02 (Some 3)]%Q).
  - reflexivity.
  - right. reflexivity.
Defined.

(** ** The kilometre markers *)

Section Markers.

Context {number : PyNumber}.

Lemma km_scan_enumerate (points : list TrackPoint) (prefix : string)
  (dist_marker : Z) (waypoints : list waypoint) (ds : list num) :
  forall k,
    (exists i,
        first_such (reaches dist_marker) ds i /\
        km_scan points prefix dist_marker
                (combine (seq k (List.length ds)) ds) waypoints
        = (p <- getitem points (k + i) ;;
           ret (waypoints ++ [(km_label prefix dist_marker, p)])%list)) \/
    (Forall (fun d => reaches dist_marker d = false) ds /\
     km_scan points prefix dist_marker
             (combine (seq k (List.length ds)) ds) waypoints
     = ret waypoints).
Proof.
  induction ds as [|d ds IH]; intros k.
  - right. split; [constructor | reflexivity].
  - cbn [List.length seq combine km_scan]. fold (reaches dist_marker d).
    destruct (reaches dist_marker d) eqn:E.
    + left. exists 0%nat. rewrite Nat.add_0_r.
      split; [apply first_such_here; exact E | reflexivity].
    + destruct (IH (S k)) as [(i & Hi & Hscan) | (Hall & Hscan)].
      * left. exists (S i). rewrite Nat.add_succ_r.
        split; [apply first_such_later; assumption | exact Hscan].
      * right. split; [constructor; assumption | exact Hscan].
Qed.

Lemma first_such_existsb {A} (test : A -> bool) (l : list A) (i : nat) :
  first_such test l i -> existsb test l = true.
Proof.
  intros [(a & Ha & Ht) _]. apply existsb_exists.
  exists a. split; [eapply nth_error_In; exact Ha | exact Ht].
Qed.

Lemma Forall_false_existsb {A} (test : A -> bool) (l : list A) :
  Forall (fun a => test a = false) l -> existsb test l = false.
Proof.
  induction 1 as [|a l Ha _ IH]; [reflexivity|].
  cbn. rewrite Ha, IH. reflexivity.
Qed.

(** The loop of lines 145-149 on aligned sequences: it never raises, and it
    adds one waypoint for each marker that some distance reaches. *)
Lemma km_loop (points : list TrackPoint) (prefix : string) (ds : list num)
  (markers : list Z) :
  List.length ds = List.length points ->
  forall waypoints,
  exists kms,
    for_each markers
      (fun dist_marker waypoints =>
         km_scan points prefix dist_marker (enumerate ds) waypoints)
      waypoints
    = inr (waypoints ++ kms)%list /\
    Forall2 (marker_of points prefix ds)
            (filter (fun dist_marker => existsb (reaches dist_marker) ds)
                    markers)
            kms.
Proof.
  intros Hlen. induction markers as [|dm markers IH]; intros waypoints.
  - exists []. rewrite app_nil_r. split; [reflexivity | constructor].
  - cbn [for_each filter]. unfold enumerate at 1.
    destruct (km_scan_enumerate points prefix dm waypoints ds 0)
      as [(i & Hi & Hscan) | (Hall & Hscan)]; rewrite Hscan.
    + cbn [Nat.add].
      pose proof (first_such_lt _ _ _ Hi) as Hlt. rewrite Hlen in Hlt.
      destruct (getitem_lt points i Hlt) as (p & Hget & Hnth).
      rewrite Hget. cbn [bind ret].
      destruct (IH (waypoints ++ [(km_label prefix dm, p)])%list)
        as (kms & Hloop & Hkms).
      exists ((km_label prefix dm, p) :: kms).
      rewrite (first_such_existsb _ _ _ Hi). split.
      * rewrite Hloop, <- app_assoc. reflexivity.
      * constructor; [|exact Hkms].
        split; [reflexivity|]. exists i. split; assumption.
    + cbn [bind ret]. rewrite (Forall_false_existsb _ _ Hall). apply IH.
Qed.

End Markers.

(** ** generate_waypoints *)

Section Generator.

Context {number : PyNumber}.
Variable geod_inv : num -> num -> num -> num -> result num.
Variable format_f : nat -> num -> string.

Lemma calculate_distance_length (points : list TrackPoint) (total : num)
  (ds : list num) :
  calculate_distance geod_inv points = inr (total, ds) ->
  List.length ds = List.length points.
Proof.
  destruct points as [|p ps]; [discriminate|].
  rewrite calculate_distance_cons. intros H. apply try_except_inr in H.
  apply accumulate_shape in H as (tail & -> & Hlen & _).
  cbn [app List.length]. f_equal. exact Hlen.
Qed.

Lemma find_halfway_point_returns (points : list TrackPoint) (ds : list num)
  (total : num) :
  points <> [] -> List.length ds = List.length points ->
  exists p, find_halfway_point points ds total = ret p.
Proof.
  intros Hne Hlen. destruct points as [|p0 ps]; [contradiction Hne; reflexivity|].
  unfold find_halfway_point, enumerate.
  destruct (halfway_scan_enumerate (p0 :: ps) (div total (of_int 2)) ds 0)
    as [(i & Hi & Hscan) | (_ & Hscan)]; rewrite Hscan.
  - pose proof (first_such_lt _ _ _ Hi) as Hlt. rewrite Hlen in Hlt.
    destruct (getitem_lt (p0 :: ps) i Hlt) as (p & Hget & _).
    exists p. cbn [Nat.add]. rewrite Hget. reflexivity.
  - eexists. apply getitem_last_cons.
Qed.

Lemma find_extreme_points_returns (points : list TrackPoint) :
  valid_points points <> [] ->
  exists highest lowest, find_extreme_points points = ret (highest, lowest).
Proof.
  intros Hne. unfold find_extreme_points.
  destruct (valid_points points) as [|v vs]; [contradiction Hne; reflexivity|].
  eexists _, _. reflexivity.
Qed.

Lemma find_extreme_points_valid (points : list TrackPoint)
  (hl : TrackPoint * TrackPoint) :
  find_extreme_points points = inr hl -> valid_points points <> [].
Proof.
  unfold find_extreme_points.
  destruct (valid_points points); [discriminate | discriminate].
Qed.

Lemma elevations_valid_points (points : list TrackPoint) :
  elevations points = map snd (valid_points points).
Proof.
  induction points as [|p l IH]; [reflexivity|].
  rewrite valid_points_cons. unfold elevations in *. cbn [flat_map].
  rewrite IH. destruct (elevation p); reflexivity.
Qed.

Lemma waypoints_and_telemetry_returns (points : list TrackPoint)
  (prefix : string) (total : num) (ds : list num) (stop : Z) :
  calculate_distance geod_inv points = inr (total, ds) ->
  int_of (mul total (of_int 1000)) = inr stop ->
  valid_points points <> [] ->
  exists first last kms highest lowest halfway tel,
    waypoints_and_telemetry geod_inv format_f points prefix
    = inr (waypoints_of prefix first last kms highest lowest halfway, tel) /\
    nth_error points 0 = Some first /\
    getitem_last points = ret last /\
    Forall2 (marker_of points prefix ds) (reached_markers ds stop) kms /\
    find_extreme_points points = ret (highest, lowest) /\
    find_halfway_point points ds total = ret halfway.
Proof.
  intros Hcalc Hint Hvalid.
  pose proof (calculate_distance_length _ _ _ Hcalc) as Hlen.
  destruct points as [|p ps]; [discriminate|].
  destruct (find_extreme_points_returns _ Hvalid) as (highest & lowest & Hext).
  destruct (find_halfway_point_returns (p :: ps) ds total) as (halfway & Hhalf);
    [discriminate | exact Hlen |].
  destruct (km_loop (p :: ps) prefix ds (range_step 1000 (stop + 1) 1000) Hlen
              [(prefix ++ "_TH", p); (prefix ++ "_TE", List.last ps p)])
    as (kms & Hloop & Hkms).
  assert (Helev : exists lo hi,
             min_default (elevations (p :: ps)) = Some lo /\
             max_default (elevations (p :: ps)) = Some hi).
  { rewrite elevations_valid_points.
    destruct (valid_points (p :: ps)); [contradiction Hvalid; reflexivity|].
    eexists _, _. split; reflexivity. }
  destruct Helev as (lo & hi & Hlo & Hhi).
  exists p, (List.last ps p), kms, highest, lowest, halfway. eexists.
  split; [|repeat split; try assumption; apply getitem_last_cons].
  unfold waypoints_and_telemetry.
  rewrite Hcalc. cbn [bind]. unfold getitem at 1. cbn [nth_error bind ret].
  rewrite getitem_last_cons. cbn [bind ret].
  rewrite Hint. cbn [bind]. rewrite Hloop. cbn [bind].
  rewrite Hext. cbn [bind]. rewrite Hhalf. cbn [bind ret].
  rewrite Hlo, Hhi. unfold waypoints_of, ret.
  rewrite <- !app_assoc. reflexivity.
Qed.

End Generator.

(** ** Labels *)

Lemma append_inj_l (prefix a b : string) :
  prefix ++ a = prefix ++ b -> a = b.
Proof.
  induction prefix as [|c prefix IH]; cbn; intros H.
  - exact H.
  - injection H as H. apply IH, H.
Qed.

Lemma str_int_inj (m n : Z) : str_int m = str_int n -> m = n.
Proof.
  unfold str_int. intros H.
  assert (Hnorm : forall z, NilZero.int_of_string
                              (NilZero.string_of_int (Z.to_int z))
                            = Some (Z.to_int z)).
  { intros z. apply NilZero.isi; destruct z; cbn; try discriminate;
      intros [= E]; exact (Unsigned.to_uint_nonnil _ E). }
  apply DecimalZ.to_int_inj.
  pose proof (Hnorm m) as Hm. rewrite H, Hnorm in Hm.
  injection Hm as Hm. symmetry. exact Hm.
Qed.

Lemma range_step_In (start stop step dist_marker : Z) :
  In dist_marker (range_step start stop step) ->
  exists j, dist_marker = (start + step * Z.of_nat j)%Z.
Proof.
  unfold range_step. intros H. apply in_map_iff in H as (j & <- & _).
  exists j. reflexivity.
Qed.

Lemma range_step_NoDup (start stop step : Z) :
  (0 < step)%Z -> NoDup (range_step start stop step).
Proof.
  intros Hstep. unfold range_step. apply Injective_map_NoDup.
  - intros i j H. nia.
  - apply seq_NoDup.
Qed.

Lemma km_suffix_inj (stop m n : Z) :
  In m (range_step 1000 stop 1000) -> In n (range_step 1000 stop 1000) ->
  km_suffix m = km_suffix n -> m = n.
Proof.
  intros Hm Hn H. unfold km_suffix in H. cbn in H.
  injection H as H. apply str_int_inj in H.
  apply range_step_In in Hm as (i & ->), Hn as (j & ->).
  replace (1000 + 1000 * Z.of_nat i)%Z with ((1 + Z.of_nat i) * 1000)%Z in *
    by lia.
  replace (1000 + 1000 * Z.of_nat j)%Z with ((1 + Z.of_nat j) * 1000)%Z in *
    by lia.
  rewrite !Z.div_mul in H by lia. lia.
Qed.

Lemma suffixes_NoDup (stop : Z) (hits : list Z) :
  incl hits (range_step 1000 stop 1000) -> NoDup hits ->
  NoDup (suffixes hits).
Proof.
  intros Hincl Hnodup.
  assert (Hkm : NoDup (map km_suffix hits)).
  { apply Injective_map_NoDup_in; [|exact Hnodup].
    intros m n Hm Hn. apply (km_suffix_inj stop); apply Hincl; assumption. }
  assert (Hnot : forall s, In s (map km_suffix hits) ->
                           exists t, s = "_KM" ++ t).
  { intros s Hs. apply in_map_iff in Hs as (dm & <- & _).
    eexists. reflexivity. }
  unfold suffixes. cbn [app].
  repeat constructor.
  - intros [H|H]; [discriminate|].
    apply in_app_iff in H as [H|H].
    + apply Hnot in H as (t & H). discriminate.
    + cbn in H. intuition discriminate.
  - intros H. apply in_app_iff in H as [H|H].
    + apply Hnot in H as (t & H). discriminate.
    + cbn in H. intuition discriminate.
  - apply NoDup_app.
    + exact Hkm.
    + repeat constructor; cbn; intuition discriminate.
    + intros s Hs H. apply Hnot in Hs as (t & ->).
      cbn in H. intuition discriminate.
Qed.

Section Labels.

Context {number : PyNumber}.
Variable geod_inv : num -> num -> num -> num -> result num.
Variable format_f : nat -> num -> string.

Lemma waypoints_and_telemetry_inv (points : list TrackPoint)
  (prefix : string) (wps : list waypoint) (tel : string) :
  waypoints_and_telemetry geod_inv format_f points prefix = inr (wps, tel) ->
  exists total ds stop,
    calculate_distance geod_inv points = inr (total, ds) /\
    int_of (mul total (of_int 1000)) = inr stop /\
    valid_points points <> [].
Proof.
  unfold waypoints_and_telemetry. intros H.
  destruct points as [|p ps]; [discriminate|].
  apply bind_inr in H as ([total ds] & Hcalc & H).
  apply bind_inr in H as (first & _ & H).
  apply bind_inr in H as (last & _ & H).
  apply bind_inr in H as (stop & Hint & H).
  apply bind_inr in H as (w & _ & H).
  apply bind_inr in H as (hl & Hext & _).
  exists total, ds, stop. repeat split; try assumption.
  eapply find_extreme_points_valid, Hext.
Qed.

Lemma generate_waypoints_inv (gpx : GPX) (prefix : string)
  (wps : list waypoint) :
  snd (generate_waypoints geod_inv format_f gpx prefix) = inr wps ->
  exists track others segment segs tel,
    tracks gpx = track :: others /\
    segments track = segment :: segs /\
    waypoints_and_telemetry geod_inv format_f (points segment) prefix
    = inr (wps, tel).
Proof.
  unfold generate_waypoints. intros H.
  destruct (tracks gpx) as [|track others]; [discriminate|].
  destruct (segments track) as [|segment segs] eqn:Es; [discriminate|].
  destruct (waypoints_and_telemetry _ _ _ _) as [e|[w tel]] eqn:E;
    [discriminate|].
  cbn in H. injection H as ->.
  exists track, others, segment, segs, tel. repeat split; assumption.
Qed.

Lemma generate_waypoints_returns (gpx : GPX) (prefix : string)
  (track : Track) (others : list Track) (segment : Segment)
  (segs : list Segment) (wps : list waypoint) (tel : string) :
  tracks gpx = track :: others ->
  segments track = segment :: segs ->
  waypoints_and_telemetry geod_inv format_f (points segment) prefix
  = inr (wps, tel) ->
  generate_waypoints geod_inv format_f gpx prefix
  = ({| tracks := set_comment tel (set_name prefix track) :: others |},
     ret wps).
Proof.
  intros Ht Hs H. unfold generate_waypoints. rewrite Ht, Hs, H. reflexivity.
Qed.

Lemma marker_labels (points : list TrackPoint) (prefix : string)
  (ds : list num) (hits : list Z) (kms : list waypoint) :
  Forall2 (marker_of points prefix ds) hits kms ->
  map fst kms = map (fun dm => prefix ++ km_suffix dm) hits.
Proof.
  induction 1 as [|dm wp hits kms [Hlabel _] _ IH]; [reflexivity|].
  cbn [map]. rewrite Hlabel, IH. reflexivity.
Qed.

Lemma waypoints_of_labels (points : list TrackPoint) (prefix : string)
  (ds : list num) (hits : list Z) (first last : TrackPoint)
  (kms : list waypoint) (highest lowest halfway : TrackPoint) :
  Forall2 (marker_of points prefix ds) hits kms ->
  map fst (waypoints_of prefix first last kms highest lowest halfway)
  = map (fun suffix => prefix ++ suffix) (suffixes hits).
Proof.
  intros H. unfold waypoints_of, suffixes. cbn zeta.
  rewrite !map_app, map_map. f_equal. f_equal.
  exact (marker_labels _ _ _ _ _ H).
Qed.

(** C8.  The labels of the waypoints that one run of [generate_waypoints]
    returns are pairwise distinct. *)
Theorem labels_pairwise_distinct (gpx : GPX) (prefix : string)
  (wps : list waypoint) :
  snd (generate_waypoints geod_inv format_f gpx prefix) = inr wps ->
  NoDup (map fst wps).
Proof.
  intros H.
  apply generate_waypoints_inv in H
    as (track & others & segment & segs & tel & _ & _ & H).
  destruct (waypoints_and_telemetry_inv _ _ _ _ H)
    as (total & ds & stop & Hcalc & Hint & Hvalid).
  destruct (waypoints_and_telemetry_returns geod_inv format_f _ prefix _ _ _
              Hcalc Hint Hvalid)
    as (first & last & kms & highest & lowest & halfway & tel' & E & _ & _
        & Hkms & _).
  rewrite E in H. injection H as <- _.
  rewrite (waypoints_of_labels _ _ _ _ _ _ _ _ _ _ Hkms).
  apply Injective_map_NoDup.
  - intros a b. apply append_inj_l.
  - apply (suffixes_NoDup (stop + 1)).
    + unfold reached_markers. intros dm Hdm.
      apply filter_In in Hdm. apply Hdm.
    + apply NoDup_filter, range_step_NoDup. lia.
Qed.

End Labels.

Lemma labels_pairwise_distinct_witness :
  exists wps,
    snd (generate_waypoints grid_inv plain_format (document None ridge)
                            "RIDGE") = inr wps /\
    map fst wps = ["RIDGE_TH"; "RIDGE_TE"; "RIDGE_KM1"; "RIDGE_KM2";
                   "RIDGE_HGH"; "RIDGE_LWT"; "RIDGE_HLF"] /\
    NoDup (map fst wps).
Proof.
  eexists. split; [reflexivity|]. split; [reflexivity|].
  apply (labels_pairwise_distinct grid_inv plain_format
           (document None ridge) "RIDGE").
  reflexivity.
Defined.

(** ** The markers in exact arithmetic *)








Section ExactGenerator.

Variable geod_inv : @num Q_number -> @num Q_number -> @num Q_number ->
                    @num Q_number -> result (@num Q_number).
Variable format_f : nat -> @num Q_number -> string.




End ExactGenerator.

Section ExactClaims.

Variable geod_inv : @num Q_number -> @num Q_number -> @num Q_number ->
                    @num Q_number -> result (@num Q_number).
Variable format_f : nat -> @num Q_number -> string.




End ExactClaims.



(** The scenario of the specification: a total of 2.4 km gives the markers
    KM1 and KM2, each at the first point that reaches its distance. *)
Example ridge_waypoints :
  (exists total ds,
      calculate_distance grid_inv ridge = inr (total, ds) /\
      (total == 2.4)%Q /\ Forall2 Qeq ds [0; 1; 2.4]%Q) /\
  snd (generate_waypoints grid_inv plain_format (document None ridge) "RIDGE")
  = inr [ ("RIDGE_TH", point 0 0 (Some 0));
          ("RIDGE_TE", point 0 0.024 (Some 5));
          ("RIDGE_KM1", point 0 0.01 (Some 10));
          ("RIDGE_KM2", point 0 0.024 (Some 5));
          ("RIDGE_HGH", point 0 0.01 (Some 10));
          ("RIDGE_LWT", point 0 0 (Some 0));
          ("RIDGE_HLF", point 0 0.024 (Some 5)) ]%Q.
Proof.
  split.
  - eexists _, _. split; [vm_compute; reflexivity|].
    split; [|repeat constructor]; reflexivity.
  - vm_compute. reflexivity.
Qed.

(** A failure of the geodesic routine comes back as a [RuntimeError], and
    the generator passes it on. *)
Example broken_geodesic :
  calculate_distance broken_inv ridge
  = raise (RuntimeError "Error calculating distance: inv failed") /\
  snd (generate_waypoints broken_inv plain_format (document None ridge)
                          "RIDGE")
  = raise (RuntimeError "Error calculating distance: inv failed").
Proof.
  split; reflexivity.
Qed.

(** Two points of [saddle] are at the top height 8 and two at the bottom
    height 3: the first of each pair is returned. *)
Example saddle_extremes :
  find_extreme_points saddle
  = ret (point 0 0.004 (Some 8), point 0 0 (Some 3))%Q.
Proof.
  reflexivity.
Qed.

(** A track whose points carry no elevation: the generator raises the
    no-elevation error, after the track has been renamed. *)
Example no_elevation :
  generate_waypoints grid_inv plain_format
    (document None [point 0 0 None; point 0 0.01 None]%Q) "RIDGE"
  = (document (Some "RIDGE") [point 0 0 None; point 0 0.01 None]%Q,
     raise NoElevationDataError).
Proof.
  reflexivity.
Qed.

(** ** Runs in binary64 *)

(** The same scenario with floats: the markers are KM1 and KM2. *)
Example float_ridge_waypoints :
  calculate_distance float_grid_inv float_ridge
  = inr (ratio 24 10, [ratio 0 1; ratio 1 1; ratio 24 10]) /\
  option_map (map fst)
    (match snd (generate_waypoints float_grid_inv float_format
                                   (float_document float_ridge) "RIDGE") with
     | inr wps => Some wps
     | inl _ => None
     end)
  = Some ["RIDGE_TH"; "RIDGE_TE"; "RIDGE_KM1"; "RIDGE_KM2";
          "RIDGE_HGH"; "RIDGE_LWT"; "RIDGE_HLF"].
Proof.
  split; vm_compute; reflexivity.
Qed.

(** With an infinite total, [int(total_distance * 1000)] raises, after the
    track has been renamed. *)
Example float_overflow :
  let run := generate_waypoints float_far_inv float_format
                                (float_document float_ridge) "RIDGE" in
  match snd run with
  | inl e => Some e
  | inr _ => None
  end = Some (OverflowError "cannot convert float infinity to integer") /\
  map name (tracks (fst run)) = [Some "RIDGE"].
Proof.
  split; vm_compute; reflexivity.
Qed.

(** * Further properties *)

(** ** calculate_distance *)

Section Legs.

Context {number : PyNumber}.
Variable geod_inv : num -> num -> num -> num -> result num.

Lemma last_cons_default {A} (a d : A) (l : list A) :
  List.last (a :: l) d = List.last l a.
Proof.
  revert a d. induction l as [|b l IH]; intros a d; [reflexivity|].
  change (List.last (a :: b :: l) d) with (List.last (b :: l) d).
  rewrite !IH. reflexivity.
Qed.

(** The walk along [l1 ++ l2] is the walk along [l1] followed by the walk
    along [l2] from the last point of [l1]. *)
Lemma accumulate_app (l1 l2 : list TrackPoint) :
  forall prev total ds,
    accumulate geod_inv prev (l1 ++ l2) total ds
    = bind (accumulate geod_inv prev l1 total ds)
           (fun state => accumulate geod_inv (List.last l1 prev) l2
                                    (fst state) (snd state)).
Proof.
  induction l1 as [|cur l1 IH]; intros prev total ds.
  - reflexivity.
  - cbn [app accumulate]. rewrite last_cons_default.
    destruct (geod_between geod_inv prev cur) as [e|d]; [reflexivity|].
    cbn [bind]. apply IH.
Qed.

Lemma accumulate_steps (rest : list TrackPoint) :
  forall prev total pre total' ds',
    accumulate geod_inv prev rest total (pre ++ [total]) = inr (total', ds') ->
    forall i p q,
      nth_error (prev :: rest) i = Some p ->
      nth_error (prev :: rest) (S i) = Some q ->
      exists d x,
        geod_between geod_inv p q = inr d /\
        nth_error ds' (List.length pre + i) = Some x /\
        nth_error ds' (S (List.length pre + i))
        = Some (add x (div d (of_int 1000))).
Proof.
  induction rest as [|cur rest IH]; intros prev total pre total' ds' H i p q Hp Hq.
  - destruct i; discriminate.
  - cbn [accumulate] in H. apply bind_inr in H as (d & Hd & H).
    destruct i as [|i].
    + cbn in Hp, Hq. injection Hp as <-. injection Hq as <-.
      apply accumulate_shape in H as (tail & -> & _ & _).
      exists d, total. rewrite Nat.add_0_r. split; [exact Hd|].
      rewrite <- !app_assoc. cbn [app]. split.
      * rewrite nth_error_app2, Nat.sub_diag by lia. reflexivity.
      * rewrite nth_error_app2 by lia.
        replace (S (List.length pre) - List.length pre)%nat with 1%nat by lia.
        reflexivity.
    + specialize (IH cur _ (pre ++ [total])%list total' ds' H i p q Hp Hq).
      destruct IH as (d' & x & Hd' & Hx & Hy).
      rewrite length_app in Hx, Hy. cbn [List.length] in Hx, Hy.
      exists d', x. split; [exact Hd'|].
      replace (List.length pre + S i)%nat with (List.length pre + 1 + i)%nat
        by lia.
      split; assumption.
Qed.

(** X1.  The accumulator stops at the first pair of consecutive points on
    which the geodesic routine raises, and raises a [RuntimeError] with the
    message of that exception: it gives no partial result. *)
Theorem distance_fails_at_first_error (points before after : list TrackPoint)
  (p q : TrackPoint) (e : exception) :
  points = (before ++ p :: q :: after)%list ->
  Forall (fun pq => exists d, geod_between geod_inv (fst pq) (snd pq) = inr d)
         (consecutive (before ++ [p])) ->
  geod_between geod_inv p q = inl e ->
  calculate_distance geod_inv points
  = raise (RuntimeError ("Error calculating distance: " ++ str e)).
Proof.
  intros -> Hok He.
  assert (Hsplit : exists first l1,
             (before ++ [p] = first :: l1)%list /\ List.last l1 first = p).
  { destruct before as [|b bs].
    - exists p, []. split; reflexivity.
    - exists b, (bs ++ [p])%list. split; [reflexivity | apply last_last]. }
  destruct Hsplit as (first & l1 & Heq & Hlast).
  replace (before ++ p :: q :: after)%list
    with (first :: l1 ++ q :: after)%list
    by (change (first :: l1 ++ q :: after)%list
          with ((first :: l1) ++ q :: after)%list;
        rewrite <- Heq, <- app_assoc; reflexivity).
  rewrite calculate_distance_cons, accumulate_app. rewrite Heq in Hok.
  destruct (accumulate_succeeds geod_inv l1 first (of_int 0) [of_int 0] Hok)
    as (total & ds & E).
  rewrite E. cbn [bind fst snd accumulate]. rewrite Hlast, He. reflexivity.
Qed.

(** X2.  Each cumulative distance is the one before it plus the geodesic
    distance between the two points, divided by 1000. *)
Theorem cumulative_distance_steps (points : list TrackPoint) (total : num)
  (ds : list num) :
  calculate_distance geod_inv points = inr (total, ds) ->
  forall i p q,
    nth_error points i = Some p ->
    nth_error points (S i) = Some q ->
    exists d x,
      geod_between geod_inv p q = inr d /\
      nth_error ds i = Some x /\
      nth_error ds (S i) = Some (add x (div d (of_int 1000))).
Proof.
  destruct points as [|p0 ps]; [discriminate|].
  rewrite calculate_distance_cons. intros H i p q Hp Hq.
  apply try_except_inr in H.
  exact (accumulate_steps ps p0 (of_int 0) [] total ds H i p q Hp Hq).
Qed.

(** X3.  The cumulative distances of the first points of a track are the
    first cumulative distances of the track. *)
Theorem distances_of_prefix (l l' : list TrackPoint) (total : num)
  (ds : list num) :
  l <> [] ->
  calculate_distance geod_inv (l ++ l') = inr (total, ds) ->
  exists total1,
    calculate_distance geod_inv l = inr (total1, firstn (List.length l) ds).
Proof.
  intros Hne H. destruct l as [|p l1]; [contradiction Hne; reflexivity|].
  cbn [app] in H. rewrite calculate_distance_cons in *.
  apply try_except_inr in H. rewrite accumulate_app in H.
  apply bind_inr in H as ([total1 ds1] & H1 & H2). cbn [fst snd] in H2.
  exists total1. apply try_except_inr. rewrite H1. do 2 f_equal.
  apply accumulate_shape in H2 as (tail & -> & _ & _).
  apply accumulate_shape in H1 as (tail1 & -> & Hlen & _).
  cbn [List.length app]. rewrite <- Hlen.
  change (of_int 0 :: tail1 ++ tail)%list
    with ((of_int 0 :: tail1) ++ tail)%list.
  change (S (List.length tail1)) with (List.length (of_int 0 :: tail1)).
  rewrite firstn_app, Nat.sub_diag, firstn_all. cbn [firstn].
  rewrite app_nil_r. reflexivity.
Qed.

End Legs.

Lemma distance_fails_at_first_error_witness :
  calculate_distance fragile_inv ridge
  = raise (RuntimeError "Error calculating distance: out of bounds").
Proof.
  apply (distance_fails_at_first_error fragile_inv ridge
           [point 0 0 (Some 0)]%Q [] (point 0 0.01 (Some 10))%Q
           (point 0 0.024 (Some 5))%Q (OtherError "out of bounds")).
  - reflexivity.
  - repeat constructor. eexists. reflexivity.
  - reflexivity.
Defined.

Lemma cumulative_distance_steps_witness :
  exists total ds d x,
    calculate_distance grid_inv ridge = inr (total, ds) /\
    geod_between grid_inv (point 0 0.01 (Some 10))%Q (point 0 0.024 (Some 5))%Q
    = inr d /\
    nth_error ds 1 = Some x /\
    nth_error ds 2 = Some (x + d / 1000)%Q.
Proof.
  destruct (calculate_distance grid_inv ridge) as [e|[total ds]] eqn:E;
    [discriminate|].
  destruct (cumulative_distance_steps grid_inv ridge total ds E 1
              (point 0 0.01 (Some 10))%Q (point 0 0.024 (Some 5))%Q
              eq_refl eq_refl) as (d & x & Hd & Hx & Hy).
  exists total, ds, d, x. repeat split; assumption.
Defined.

Lemma distances_of_prefix_witness :
  exists total total1 ds,
    calculate_distance grid_inv ridge = inr (total, ds) /\
    calculate_distance grid_inv (firstn 2 ridge) = inr (total1, firstn 2 ds).
Proof.
  destruct (calculate_distance grid_inv ridge) as [e|[total ds]] eqn:E;
    [discriminate|].
  destruct (distances_of_prefix grid_inv (firstn 2 ridge) (skipn 2 ridge)
              total ds) as (total1 & E1).
  - discriminate.
  - exact E.
  - exists total, total1, ds. split; [reflexivity | exact E1].
Defined.

Section ExactLegs.

Variable geod_inv : @num Q_number -> @num Q_number -> @num Q_number ->
                    @num Q_number -> result (@num Q_number).



End ExactLegs.


(** ** find_extreme_points *)

Section ExtremesAnyNumber.

Context {number : PyNumber}.

Lemma max_by_In {A} (key : A -> num) (xs : list A) (x : A) :
  In (max_by key x xs) (x :: xs).
Proof.
  unfold max_by. revert x. induction xs as [|a xs IH]; intros x.
  - left. reflexivity.
  - cbn [fold_left]. destruct (gt (key a) (key x)).
    + right. apply IH.
    + destruct (IH x) as [H|H]; [left; exact H | right; right; exact H].
Qed.

Lemma min_by_In {A} (key : A -> num) (xs : list A) (x : A) :
  In (min_by key x xs) (x :: xs).
Proof.
  unfold min_by. revert x. induction xs as [|a xs IH]; intros x.
  - left. reflexivity.
  - cbn [fold_left]. destruct (lt (key a) (key x)).
    + right. apply IH.
    + destruct (IH x) as [H|H]; [left; exact H | right; right; exact H].
Qed.

Lemma max_by_map {A} (key : A -> num) (xs : list A) (x : A) :
  max_by (fun e => e) (key x) (map key xs) = key (max_by key x xs).
Proof.
  unfold max_by. revert x. induction xs as [|a xs IH]; intros x.
  - reflexivity.
  - cbn [map fold_left]. rewrite <- IH.
    destruct (gt (key a) (key x)); reflexivity.
Qed.

Lemma min_by_map {A} (key : A -> num) (xs : list A) (x : A) :
  min_by (fun e => e) (key x) (map key xs) = key (min_by key x xs).
Proof.
  unfold min_by. revert x. induction xs as [|a xs IH]; intros x.
  - reflexivity.
  - cbn [map fold_left]. rewrite <- IH.
    destruct (lt (key a) (key x)); reflexivity.
Qed.

Lemma valid_points_inv (l : list TrackPoint) (p : TrackPoint) (e : num) :
  In (p, e) (valid_points l) -> In p l /\ elevation p = Some e.
Proof.
  unfold valid_points. intros H. apply in_flat_map in H as (q & Hq & H).
  destruct (elevation q) as [e'|] eqn:E; [|contradiction H].
  destruct H as [H|[]]. injection H as <- <-. split; assumption.
Qed.

Lemma valid_points_filter (l : list TrackPoint) :
  valid_points (filter has_elevation l) = valid_points l.
Proof.
  induction l as [|p l IH]; [reflexivity|].
  cbn [filter]. unfold has_elevation at 1.
  destruct (elevation p) as [e|] eqn:E.
  - rewrite !valid_points_cons, E, IH. reflexivity.
  - rewrite valid_points_cons, E. exact IH.
Qed.

Lemma find_extreme_points_inv (points : list TrackPoint)
  (highest lowest : TrackPoint) :
  find_extreme_points points = ret (highest, lowest) ->
  exists v vs,
    valid_points points = v :: vs /\
    highest = fst (max_by snd v vs) /\
    lowest = fst (min_by snd v vs).
Proof.
  unfold find_extreme_points.
  destruct (valid_points points) as [|v vs]; [discriminate|].
  cbn. intros H. injection H as <- <-. exists v, vs. auto.
Qed.

Lemma find_extreme_points_In (points : list TrackPoint)
  (highest lowest : TrackPoint) :
  find_extreme_points points = ret (highest, lowest) ->
  exists eh el,
    In highest points /\ elevation highest = Some eh /\
    In lowest points /\ elevation lowest = Some el.
Proof.
  intros H. apply find_extreme_points_inv in H as (v & vs & Ev & -> & ->).
  pose proof (max_by_In snd vs v) as Hh. pose proof (min_by_In snd vs v) as Hl.
  rewrite <- Ev in Hh, Hl.
  destruct (max_by snd v vs) as [h eh]. destruct (min_by snd v vs) as [l el].
  apply valid_points_inv in Hh as [Hh Heh], Hl as [Hl Hel].
  exists eh, el. auto.
Qed.

(** X5.  The points without elevation play no part in the search: leaving
    them out changes nothing, and the two points returned are points of
    the sequence that carry an elevation. *)
Theorem extreme_points_among_valid (points : list TrackPoint) :
  find_extreme_points (filter has_elevation points)
  = find_extreme_points points /\
  (forall highest lowest,
      find_extreme_points points = ret (highest, lowest) ->
      In highest points /\ has_elevation highest = true /\
      In lowest points /\ has_elevation lowest = true).
Proof.
  split.
  - unfold find_extreme_points. rewrite valid_points_filter. reflexivity.
  - intros highest lowest H.
    apply find_extreme_points_In in H as (eh & el & Hh & Heh & Hl & Hel).
    unfold has_elevation. rewrite Heh, Hel. auto.
Qed.

(** X6.  The altitudes of the telemetry are those of the two extreme
    waypoints: the maximum of line 163 is the elevation of the highest
    point, the minimum of line 162 that of the lowest. *)
Theorem altitudes_of_extreme_points (points : list TrackPoint)
  (highest lowest : TrackPoint) :
  find_extreme_points points = ret (highest, lowest) ->
  max_default (elevations points) = elevation highest /\
  min_default (elevations points) = elevation lowest.
Proof.
  intros H. apply find_extreme_points_inv in H as (v & vs & Ev & -> & ->).
  rewrite elevations_valid_points, Ev. cbn [map max_default min_default].
  rewrite max_by_map, min_by_map.
  pose proof (max_by_In snd vs v) as Hh. pose proof (min_by_In snd vs v) as Hl.
  rewrite <- Ev in Hh, Hl.
  destruct (max_by snd v vs) as [h eh]. destruct (min_by snd v vs) as [l el].
  apply valid_points_inv in Hh as [_ Heh], Hl as [_ Hel].
  cbn [fst snd]. rewrite Heh, Hel. split; reflexivity.
Qed.

End ExtremesAnyNumber.

Lemma altitudes_of_extreme_points_witness :
  max_default (elevations saddle) = Some 8%Q /\
  min_default (elevations saddle) = Some 3%Q.
Proof.
  apply (altitudes_of_extreme_points saddle
           (point 0 0.004 (Some 8))%Q (point 0 0 (Some 3))%Q).
  reflexivity.
Defined.

(** ** find_halfway_point *)

Lemma first_such_unique {A} (test : A -> bool) (l : list A) (i j : nat) :
  first_such test l i -> first_such test l j -> i = j.
Proof.
  intros [(a & Ha & Hta) Hi] [(b & Hb & Htb) Hj].
  destruct (Nat.lt_trichotomy i j) as [H|[H|H]]; [|exact H|].
  - rewrite (Hj i a H Ha) in Hta. discriminate.
  - rewrite (Hi j b H Hb) in Htb. discriminate.
Qed.

Section HalfwayAnyNumber.

Context {number : PyNumber}.

(** X7.  When the distances are more than the points and the first one to
    reach the half lies beyond the last point, the [IndexError] of
    [points[i]] comes back as a [RuntimeError]. *)
Theorem halfway_index_error (points : list TrackPoint) (distances : list num)
  (total_distance : num) (i : nat) :
  points <> [] ->
  first_reaching distances (div total_distance (of_int 2)) i ->
  (List.length points <= i)%nat ->
  find_halfway_point points distances total_distance
  = raise (RuntimeError
             "Error finding halfway point: list index out of range").
Proof.
  intros Hne Hi Hlen. destruct points as [|p0 ps]; [contradiction Hne; reflexivity|].
  unfold find_halfway_point, enumerate.
  destruct (halfway_scan_enumerate (p0 :: ps) (div total_distance (of_int 2))
              distances 0) as [(j & Hj & Hscan) | (Hall & _)].
  - rewrite Hscan. cbn [Nat.add].
    rewrite <- (first_such_unique _ _ _ _ Hi Hj).
    unfold getitem.
    destruct (nth_error (p0 :: ps) i) eqn:E; [|reflexivity].
    assert (nth_error (p0 :: ps) i <> None) as Hsome by congruence.
    apply nth_error_Some in Hsome. lia.
  - destruct Hi as [(d & Hd & Htest) _].
    rewrite Forall_forall in Hall.
    rewrite (Hall d (nth_error_In _ _ Hd)) in Htest. discriminate.
Qed.

End HalfwayAnyNumber.

Lemma halfway_index_error_witness :
  find_halfway_point [point 0 0 None] [0; 1; 2]%Q 2%Q
  = raise (RuntimeError
             "Error finding halfway point: list index out of range").
Proof.
  apply (halfway_index_error [point 0 0 None] [0; 1; 2]%Q 2%Q 1).
  - discriminate.
  - split.
    + exists 1%Q. split; reflexivity.
    + intros [|j] d Hj Hd; [|lia]. injection Hd as <-. reflexivity.
  - cbn. lia.
Defined.

Section HalfwayExact.

Variable geod_inv : @num Q_number -> @num Q_number -> @num Q_number ->
                    @num Q_number -> result (@num Q_number).



End HalfwayExact.


(** ** generate_waypoints: the document and the errors *)

Section GeneratorAnyNumber.

Context {number : PyNumber}.
Variable geod_inv : num -> num -> num -> num -> result num.
Variable format_f : nat -> num -> string.

Lemma calculate_distance_error (points : list TrackPoint) (e : exception) :
  calculate_distance geod_inv points = inl e ->
  (points = [] /\ e = ValueError "No points found in the track.") \/
  (exists cause, e = RuntimeError ("Error calculating distance: " ++ str cause)).
Proof.
  destruct points as [|p ps].
  - cbn. intros H. injection H as <-. left. split; reflexivity.
  - rewrite calculate_distance_cons. unfold try_except.
    destruct (accumulate geod_inv p ps _ _) as [cause|r]; [|discriminate].
    intros H. injection H as <-. right. exists cause. reflexivity.
Qed.

Lemma waypoints_and_telemetry_no_elevation (points : list TrackPoint)
  (prefix : string) (total : num) (ds : list num) (stop : Z) :
  calculate_distance geod_inv points = inr (total, ds) ->
  int_of (mul total (of_int 1000)) = inr stop ->
  valid_points points = [] ->
  waypoints_and_telemetry geod_inv format_f points prefix
  = raise NoElevationDataError.
Proof.
  intros Hcalc Hint Hvalid.
  pose proof (calculate_distance_length _ _ _ _ Hcalc) as Hlen.
  destruct points as [|p ps]; [discriminate|].
  destruct (km_loop (p :: ps) prefix ds (range_step 1000 (stop + 1) 1000) Hlen
              [(prefix ++ "_TH", p); (prefix ++ "_TE", List.last ps p)])
    as (kms & Hloop & _).
  unfold waypoints_and_telemetry.
  rewrite Hcalc. cbn [bind]. unfold getitem at 1. cbn [nth_error bind ret].
  rewrite getitem_last_cons. cbn [bind ret].
  rewrite Hint. cbn [bind]. rewrite Hloop. cbn [bind].
  unfold find_extreme_points. rewrite Hvalid. reflexivity.
Qed.

(** X9.  Whatever [generate_waypoints] returns or raises, the document
    keeps its segments, hence its points, and every track but the first
    is as it was; when it raises, the comments are as they were; and when
    the first track has a segment, that track is renamed to the prefix,
    whether the call then raises or not. *)
Theorem generate_waypoints_document (gpx : GPX) (prefix : string) :
  let run := generate_waypoints geod_inv format_f gpx prefix in
  map segments (tracks (fst run)) = map segments (tracks gpx) /\
  tl (tracks (fst run)) = tl (tracks gpx) /\
  (forall e, snd run = inl e ->
             map comment (tracks (fst run)) = map comment (tracks gpx)) /\
  (forall track others,
      tracks gpx = track :: others -> segments track <> [] ->
      map name (tracks (fst run)) = Some prefix :: map name others).
Proof.
  unfold generate_waypoints.
  destruct (tracks gpx) as [|track others] eqn:Et.
  - cbn. rewrite Et. repeat split; try reflexivity. discriminate.
  - destruct (segments track) as [|segment segs] eqn:Es.
    + cbn. rewrite Et. repeat split; try reflexivity.
      intros t o H Hne. injection H as <- <-. contradiction Hne.
    + destruct (waypoints_and_telemetry _ _ _ _) as [e|[wps tel]]; cbn;
        rewrite ?Es; repeat split; try reflexivity; try discriminate;
        intros t o H _; injection H as <- <-; reflexivity.
Qed.

Lemma waypoints_and_telemetry_errors (points : list TrackPoint)
  (prefix : string) (e : exception) :
  waypoints_and_telemetry geod_inv format_f points prefix = inl e ->
  e = ValueError "No track points available." \/
  (exists cause,
      e = RuntimeError ("Error calculating distance: " ++ str cause)) \/
  (exists total, int_of (mul total (of_int 1000)) = inl e) \/
  e = NoElevationDataError.
Proof.
  intros E.
  destruct points as [|p ps].
  { cbn in E. injection E as <-. auto. }
  destruct (calculate_distance geod_inv (p :: ps)) as [e'|[total ds]] eqn:Ec.
  { unfold waypoints_and_telemetry in E. rewrite Ec in E. cbn in E.
    injection E as ->.
    apply calculate_distance_error in Ec as [[Hnil _]|Hc]; [discriminate|].
    auto. }
  destruct (int_of (mul total (of_int 1000))) as [e'|stop] eqn:Ei.
  { unfold waypoints_and_telemetry in E. rewrite Ec in E. cbn [bind] in E.
    unfold getitem at 1 in E. cbn [nth_error bind ret] in E.
    rewrite getitem_last_cons in E. cbn [bind ret] in E.
    rewrite Ei in E. cbn in E. injection E as ->.
    right. right. left. exists total. exact Ei. }
  destruct (valid_points (p :: ps)) as [|v vs] eqn:Ev.
  - rewrite (waypoints_and_telemetry_no_elevation _ prefix _ _ _ Ec Ei Ev) in E.
    injection E as <-. auto.
  - assert (Hvalid : valid_points (p :: ps) <> []) by (rewrite Ev; discriminate).
    destruct (waypoints_and_telemetry_returns geod_inv format_f _ prefix _ _ _
                Ec Ei Hvalid) as (? & ? & ? & ? & ? & ? & ? & E' & _).
    rewrite E' in E. discriminate.
Qed.

(** X10.  The exceptions that [generate_waypoints] raises are these: the
    two [ValueError]s for a document without track data and for a segment
    without points, the [RuntimeError] of [calculate_distance], what
    [int(total_distance * 1000)] raises, and the no-elevation [ValueError]
    of [find_extreme_points].  The check of line 165 and the handlers of
    [find_extreme_points] and [find_halfway_point] never fire. *)
Theorem generate_waypoints_errors (gpx : GPX) (prefix : string)
  (e : exception) :
  snd (generate_waypoints geod_inv format_f gpx prefix) = inl e ->
  e = ValueError "No valid track data found in GPX file." \/
  e = ValueError "No track points available." \/
  (exists cause,
      e = RuntimeError ("Error calculating distance: " ++ str cause)) \/
  (exists total, int_of (mul total (of_int 1000)) = inl e) \/
  e = NoElevationDataError.
Proof.
  unfold generate_waypoints.
  destruct (tracks gpx) as [|track others].
  { cbn. intros H. injection H as <-. auto. }
  destruct (segments track) as [|segment segs].
  { cbn. intros H. injection H as <-. auto. }
  destruct (waypoints_and_telemetry _ _ _ _) as [e'|[wps tel]] eqn:E;
    [|discriminate].
  cbn. intros H. injection H as ->.
  right. exact (waypoints_and_telemetry_errors _ _ _ E).
Qed.

(** X14.  A second call on the document that a call leaves, with the same
    prefix, leaves the same document and returns or raises the same. *)
Theorem generate_waypoints_idempotent (gpx : GPX) (prefix : string) :
  generate_waypoints geod_inv format_f
    (fst (generate_waypoints geod_inv format_f gpx prefix)) prefix
  = generate_waypoints geod_inv format_f gpx prefix.
Proof.
  unfold generate_waypoints at 2 3.
  destruct (tracks gpx) as [|track others] eqn:Et.
  - cbn [fst]. unfold generate_waypoints. rewrite Et. reflexivity.
  - destruct (segments track) as [|segment segs] eqn:Es.
    + cbn [fst]. unfold generate_waypoints. rewrite Et, Es. reflexivity.
    + destruct (waypoints_and_telemetry _ _ _ _) as [e|[wps tel]] eqn:E;
        cbn [fst]; unfold generate_waypoints; cbn [tracks set_name set_comment segments];
        rewrite Es, E; reflexivity.
Qed.

End GeneratorAnyNumber.

Lemma generate_waypoints_errors_witness :
  NoElevationDataError = ValueError "No valid track data found in GPX file." \/
  NoElevationDataError = ValueError "No track points available." \/
  (exists cause,
      NoElevationDataError
      = RuntimeError ("Error calculating distance: " ++ str cause)) \/
  (exists total : Q,
      @int_of Q_number (total * 1000)%Q = inl NoElevationDataError) \/
  NoElevationDataError = NoElevationDataError.
Proof.
  apply (generate_waypoints_errors grid_inv plain_format
           (document None [point 0 0 None; point 0 0.01 None]%Q) "RIDGE").
  reflexivity.
Defined.

(** ** generate_waypoints: the points of the waypoints *)

Lemma getitem_In {A} (l : list A) (i : nat) (a : A) :
  getitem l i = inr a -> In a l.
Proof.
  unfold getitem. destruct (nth_error l i) as [b|] eqn:E; [|discriminate].
  intros H. injection H as <-. eapply nth_error_In, E.
Qed.

Lemma getitem_last_In {A} (l : list A) (a : A) :
  getitem_last l = inr a -> In a l.
Proof.
  unfold getitem_last. destruct (rev l) as [|b l'] eqn:E; [discriminate|].
  intros H. injection H as <-. apply in_rev. rewrite E. left. reflexivity.
Qed.

Section WaypointsAnyNumber.

Context {number : PyNumber}.
Variable geod_inv : num -> num -> num -> num -> result num.
Variable format_f : nat -> num -> string.

Lemma halfway_scan_getitem (points : list TrackPoint) (bound : num)
  (items : list (nat * num)) (r : result TrackPoint) :
  halfway_scan points bound items = Some r ->
  exists i, r = getitem points i.
Proof.
  induction items as [|[i d] items IH]; [discriminate|].
  cbn [halfway_scan]. destruct (ge d bound).
  - intros H. injection H as <-. exists i. reflexivity.
  - exact IH.
Qed.

Lemma find_halfway_point_In (points : list TrackPoint) (ds : list num)
  (total : num) (p : TrackPoint) :
  find_halfway_point points ds total = ret p -> In p points.
Proof.
  unfold find_halfway_point. destruct points as [|p0 ps]; [discriminate|].
  destruct (halfway_scan _ _ _) as [r|] eqn:E.
  - apply halfway_scan_getitem in E as (i & ->).
    intros H. apply try_except_inr in H. eapply getitem_In, H.
  - apply getitem_last_In.
Qed.

(** The points of the markers, one for each marker that is reached. *)
Lemma marker_points (points : list TrackPoint) (prefix : string)
  (ds : list num) (hits : list Z) (kms : list waypoint) :
  Forall2 (marker_of points prefix ds) hits kms ->
  Forall2 (fun dm p => exists i, first_such (reaches dm) ds i /\
                                 nth_error points i = Some p)
          hits (map snd kms).
Proof.
  induction 1 as [|dm wp hits kms [_ H] _ IH]; constructor; assumption.
Qed.

Lemma marker_points_unique (points : list TrackPoint) (ds : list num)
  (hits : list Z) (ps ps' : list TrackPoint) :
  Forall2 (fun dm p => exists i, first_such (reaches dm) ds i /\
                                 nth_error points i = Some p) hits ps ->
  Forall2 (fun dm p => exists i, first_such (reaches dm) ds i /\
                                 nth_error points i = Some p) hits ps' ->
  ps = ps'.
Proof.
  intros H. revert ps'.
  induction H as [|dm p hits ps (i & Hi & Hp) _ IH]; intros ps' H';
    inversion H' as [|? p' ? ps'' (j & Hj & Hp') Hrest]; subst; [reflexivity|].
  rewrite (first_such_unique _ _ _ _ Hi Hj) in Hp.
  f_equal; [congruence | apply IH, Hrest].
Qed.

(** X12.  Every waypoint that [generate_waypoints] returns is bound to a
    point of the first segment of the first track. *)
Theorem waypoints_on_track (gpx : GPX) (prefix : string)
  (wps : list waypoint) :
  snd (generate_waypoints geod_inv format_f gpx prefix) = inr wps ->
  exists track others segment segs,
    tracks gpx = track :: others /\
    segments track = segment :: segs /\
    Forall (fun wp => In (snd wp) (points segment)) wps.
Proof.
  intros H.
  apply generate_waypoints_inv in H
    as (track & others & segment & segs & tel & Ht & Hs & H).
  exists track, others, segment, segs. split; [exact Ht|]. split; [exact Hs|].
  destruct (waypoints_and_telemetry_inv _ _ _ _ _ _ H)
    as (total & ds & stop & Hcalc & Hint & Hvalid).
  destruct (waypoints_and_telemetry_returns geod_inv format_f _ prefix _ _ _
              Hcalc Hint Hvalid)
    as (first & last & kms & highest & lowest & halfway & tel' & E & Hfirst
        & Hlast & Hkms & Hext & Hhalf).
  rewrite E in H. injection H as <- _.
  apply find_extreme_points_In in Hext as (eh & el & Hh & _ & Hl & _).
  apply find_halfway_point_In in Hhalf. apply getitem_last_In in Hlast.
  apply nth_error_In in Hfirst.
  unfold waypoints_of. cbn zeta. cbn [app].
  repeat (apply Forall_cons; [assumption|]).
  apply Forall_app. split; [|repeat (apply Forall_cons; [assumption|]); constructor].
  apply marker_points in Hkms. apply Forall_forall. intros wp Hwp.
  apply (in_map snd) in Hwp.
  clear - Hkms Hwp. induction Hkms as [|dm p hits ps (i & _ & Hp) _ IH].
  - contradiction Hwp.
  - destruct Hwp as [<-|Hwp]; [eapply nth_error_In, Hp | apply IH, Hwp].
Qed.

(** X16.  The prefix decides the labels only: with another prefix the call
    returns as well, and the waypoints are bound to the same points in the
    same order. *)
Theorem waypoint_points_independent_of_prefix (gpx : GPX)
  (prefix prefix' : string) (wps : list waypoint) :
  snd (generate_waypoints geod_inv format_f gpx prefix) = inr wps ->
  exists wps',
    snd (generate_waypoints geod_inv format_f gpx prefix') = inr wps' /\
    map snd wps' = map snd wps.
Proof.
  intros H.
  apply generate_waypoints_inv in H
    as (track & others & segment & segs & tel & Ht & Hs & H).
  destruct (waypoints_and_telemetry_inv _ _ _ _ _ _ H)
    as (total & ds & stop & Hcalc & Hint & Hvalid).
  destruct (waypoints_and_telemetry_returns geod_inv format_f _ prefix _ _ _
              Hcalc Hint Hvalid)
    as (first & last & kms & highest & lowest & halfway & tel1 & E & Hfirst
        & Hlast & Hkms & Hext & Hhalf).
  destruct (waypoints_and_telemetry_returns geod_inv format_f _ prefix' _ _ _
              Hcalc Hint Hvalid)
    as (first' & last' & kms' & highest' & lowest' & halfway' & tel2 & E'
        & Hfirst' & Hlast' & Hkms' & Hext' & Hhalf').
  rewrite E in H. injection H as <- _.
  exists (waypoints_of prefix' first' last' kms' highest' lowest' halfway').
  split.
  - rewrite (generate_waypoints_returns geod_inv format_f gpx prefix'
               _ _ _ _ _ _ Ht Hs E'). reflexivity.
  - rewrite Hfirst in Hfirst'. injection Hfirst' as <-.
    rewrite Hlast in Hlast'. injection Hlast' as <-.
    rewrite Hext in Hext'. injection Hext' as <- <-.
    rewrite Hhalf in Hhalf'. injection Hhalf' as <-.
    unfold waypoints_of. cbn zeta. rewrite !map_app. cbn [map snd].
    do 2 f_equal.
    apply (marker_points_unique (points segment) ds (reached_markers ds stop)).
    + exact (marker_points _ _ _ _ _ Hkms').
    + exact (marker_points _ _ _ _ _ Hkms).
Qed.

End WaypointsAnyNumber.

Lemma waypoints_on_track_witness :
  exists wps,
    snd (generate_waypoints grid_inv plain_format (document None ridge)
                            "RIDGE") = inr wps /\
    Forall (fun wp => In (snd wp) ridge) wps.
Proof.
  eexists. split; [reflexivity|].
  destruct (waypoints_on_track grid_inv plain_format (document None ridge)
              "RIDGE" _ eq_refl)
    as (track & others & segment & segs & Ht & Hs & H).
  injection Ht as <- _. injection Hs as <- _. exact H.
Defined.

Lemma waypoint_points_independent_of_prefix_witness :
  exists wps wps',
    snd (generate_waypoints grid_inv plain_format (document None ridge)
                            "RIDGE") = inr wps /\
    snd (generate_waypoints grid_inv plain_format (document None ridge)
                            "CREST") = inr wps' /\
    map snd wps' = map snd wps.
Proof.
  eexists.
  destruct (waypoint_points_independent_of_prefix grid_inv plain_format
              (document None ridge) "RIDGE" "CREST" _ eq_refl)
    as (wps' & E & H).
  exists wps'. split; [reflexivity|]. split; assumption.
Defined.

(** ** generate_waypoints in exact arithmetic *)




Section GeneratorExact.

Variable geod_inv : @num Q_number -> @num Q_number -> @num Q_number ->
                    @num Q_number -> result (@num Q_number).
Variable format_f : nat -> @num Q_number -> string.





End GeneratorExact.


(** ** Ascent and descent in exact arithmetic *)







(** ** validate_prefix *)

Lemma match_word_line_spec (word : ascii -> bool) (s : string) :
  match_word_line word s = true <-> word_line word s.
Proof.
  split.
  - induction s as [|c rest IH]; [discriminate|].
    cbn [match_word_line]. intros H. apply andb_true_iff in H as [Hc H].
    destruct rest as [|c' rest'].
    + exists (String c EmptyString). cbn. rewrite Hc. repeat split; auto.
      discriminate.
    + apply orb_true_iff in H as [H|H].
      * apply String.eqb_eq in H. rewrite H.
        exists (String c EmptyString). cbn. rewrite Hc.
        repeat split; auto. discriminate.
      * destruct (IH H) as (body & Hne & Hall & Hs).
        exists (String c body). cbn [every]. rewrite Hc, Hall.
        split; [discriminate|]. split; [reflexivity|].
        destruct Hs as [-> | ->]; [left | right]; reflexivity.
  - intros (body & Hne & Hall & Hs). revert s Hs.
    induction body as [|c body IH]; intros s Hs; [contradiction Hne; reflexivity|].
    cbn [every] in Hall. apply andb_true_iff in Hall as [Hc Hall].
    destruct body as [|c' body'].
    + destruct Hs as [-> | ->]; cbn; rewrite Hc; reflexivity.
    + assert (Hrest : forall rest,
                 rest = String c' body' \/ rest = String c' body' ++ nl ->
                 match_word_line word rest = true).
      { intros rest Hr. apply IH; [discriminate | exact Hall | exact Hr]. }
      assert (Hstep : forall r,
                 match_word_line word (String c (String c' r))
                 = word c && (String.eqb (String c' r) nl
                              || match_word_line word (String c' r)))
        by reflexivity.
      destruct Hs as [-> | ->]; cbn [append]; rewrite Hstep, Hc;
        cbn [andb]; apply orb_true_iff; right; apply Hrest; auto.
Qed.

(** X17.  [validate_prefix] returns the prefix as it is when the prefix is
    a non-empty string of word characters, and also when such a string is
    followed by one newline, which [$] lets through; on every other prefix
    it raises the [ValueError] of line 250. *)
Theorem validate_prefix_accepts (word : ascii -> bool) (prefix : string) :
  (word_line word prefix -> validate_prefix word prefix = ret prefix) /\
  (~ word_line word prefix ->
   validate_prefix word prefix
   = raise (ValueError
              ("Invalid prefix: " ++ prefix ++
               ". Only alphanumeric characters and underscores are allowed."))).
Proof.
  unfold validate_prefix. split; intros H.
  - apply match_word_line_spec in H. rewrite H. reflexivity.
  - destruct (match_word_line word prefix) eqn:E; [|reflexivity].
    apply match_word_line_spec in E. contradiction.
Qed.

(** A prefix that ends in a newline is accepted; one with a space is not. *)
Example prefix_with_newline :
  validate_prefix ascii_word ("RIDGE" ++ nl) = ret ("RIDGE" ++ nl) /\
  validate_prefix ascii_word "trail one"
  = raise (ValueError
             ("Invalid prefix: trail one" ++
              ". Only alphanumeric characters and underscores are allowed.")).
Proof.
  split; reflexivity.
Qed.

(** ** load_gpx, save_combined_gpx and main *)


Section ScriptProperties.

Context {number : PyNumber}.
Variable geod_inv : num -> num -> num -> num -> result num.
Variable format_f : nat -> num -> string.
Variable World : Type.
Variable isfile : string -> World -> bool.
Variable open_parse : string -> World -> raised + GPX.
Variable write_xml : CombinedGPX -> string -> World -> World * result unit.
Variable word : ascii -> bool.

Lemma load_gpx_inv (file_path : string) (w : World) (gpx : GPX) :
  load_gpx World open_parse file_path w = inr gpx ->
  open_parse file_path w = inr gpx /\
  exists track others segment segs,
    tracks gpx = track :: others /\ segments track = segment :: segs.
Proof.
  unfold load_gpx.
  destruct (open_parse file_path w) as [[msg|[]]|g]; try discriminate.
  destruct (tracks g) as [|track others] eqn:Et; [discriminate|].
  destruct (segments track) as [|segment segs] eqn:Es; [discriminate|].
  intros H. injection H as <-. split; [reflexivity|].
  exists track, others, segment, segs. rewrite Et. auto.
Qed.

(** X18.  [load_gpx] returns the document that gpxpy parsed, and only a
    document whose first track has a segment.  It raises one of three
    exceptions: [FileNotFoundError] naming the path, [ValueError] with
    "Error parsing GPX file: " before the cause, which is also how a
    document without track data is refused, and [RuntimeError] with
    "Error loading GPX file: " before the cause. *)
Theorem load_gpx_contract (file_path : string) (w : World) :
  (forall gpx,
      load_gpx World open_parse file_path w = inr gpx ->
      open_parse file_path w = inr gpx /\
      exists track others segment segs,
        tracks gpx = track :: others /\ segments track = segment :: segs) /\
  (forall e,
      load_gpx World open_parse file_path w = inl e ->
      e = FileNotFoundError
            ("Error: The file '" ++ file_path ++ "' was not found.") \/
      (exists cause,
          e = Raised (ValueError ("Error parsing GPX file: " ++ cause))) \/
      (exists cause,
          e = Raised (RuntimeError ("Error loading GPX file: " ++ cause)))) /\
  (forall gpx,
      open_parse file_path w = inr gpx ->
      tracks gpx = [] \/
      (exists track others, tracks gpx = track :: others /\
                            segments track = []) ->
      load_gpx World open_parse file_path w
      = inl (Raised (ValueError
                       ("Error parsing GPX file: " ++
                        "No valid track data found in GPX file.")))).
Proof.
  split; [exact (load_gpx_inv file_path w)|]. split.
  - unfold load_gpx. intros e.
    destruct (open_parse file_path w) as [[msg|cause]|g].
    + intros H. injection H as <-. left. reflexivity.
    + destruct cause; intros H; injection H as <-;
        first [ right; left; eexists; reflexivity
              | right; right; eexists; reflexivity ].
    + destruct (tracks g) as [|track others];
        [intros H; injection H as <-; right; left; eexists; reflexivity|].
      destruct (segments track);
        [intros H; injection H as <-; right; left; eexists; reflexivity|].
      discriminate.
  - intros gpx Hparse Hno. unfold load_gpx. rewrite Hparse.
    destruct Hno as [-> | (track & others & -> & ->)]; reflexivity.
Qed.

(** X19.  On a document that [load_gpx] returned, [generate_waypoints]
    gets past its own check of the track data: the first track is renamed
    to the prefix, and what it may still raise is the empty-segment
    error, the [RuntimeError] of the distances, what
    [int(total_distance * 1000)] raises, or the no-elevation error. *)
Theorem loaded_document_is_processed (file_path : string) (w : World)
  (gpx : GPX) (prefix : string) :
  load_gpx World open_parse file_path w = inr gpx ->
  let run := generate_waypoints geod_inv format_f gpx prefix in
  (exists track others,
      tracks (fst run) = track :: others /\ name track = Some prefix) /\
  (forall e,
      snd run = inl e ->
      e = ValueError "No track points available." \/
      (exists cause,
          e = RuntimeError ("Error calculating distance: " ++ str cause)) \/
      (exists total, int_of (mul total (of_int 1000)) = inl e) \/
      e = NoElevationDataError).
Proof.
  intros H. apply load_gpx_inv in H
    as (_ & track & others & segment & segs & Ht & Hs).
  unfold generate_waypoints. rewrite Ht, Hs.
  destruct (waypoints_and_telemetry _ _ _ _) as [e|[wps tel]] eqn:E; cbn.
  - split; [eexists _, _; split; reflexivity|].
    intros e' He. injection He as <-.
    exact (waypoints_and_telemetry_errors _ _ _ _ _ E).
  - split; [eexists _, _; split; reflexivity | discriminate].
Qed.



(** X22.  [main] prints that the file was saved exactly when both
    arguments were accepted, the file was loaded, the generator returned
    and the combined document was written without an exception. *)
Theorem main_reports_success (input_gpx output_gpx trail_prefix : string)
  (w w' : World) :
  main geod_inv format_f World isfile open_parse write_xml word
       input_gpx output_gpx trail_prefix w
  = (w', Printed ("GPX file with waypoints saved: " ++ output_gpx))
  <->
  isfile input_gpx w = true /\
  word_line word trail_prefix /\
  exists gpx gpx' wps,
    load_gpx World open_parse input_gpx w = inr gpx /\
    generate_waypoints geod_inv format_f gpx trail_prefix = (gpx', inr wps) /\
    write_xml (combined_gpx gpx' wps) output_gpx w = (w', ret tt).
Proof.
  unfold main, validate_file_path, validate_prefix, save_combined_gpx.
  rewrite <- match_word_line_spec.
  destruct (isfile input_gpx w); cbv beta iota delta [ret raise];
    [|split; [discriminate | intros [H _]; discriminate]].
  destruct (match_word_line word trail_prefix);
    [|split; [discriminate | intros (_ & H & _); discriminate]].
  destruct (load_gpx World open_parse input_gpx w) as [e|gpx].
  { split; [intros H; injection H as _ H; discriminate|].
    intros (_ & _ & ? & ? & ? & H & _). discriminate. }
  destruct (generate_waypoints geod_inv format_f gpx trail_prefix)
    as [gpx' [e|wps]] eqn:Eg.
  { split; [intros H; injection H as _ H; discriminate|].
    intros (_ & _ & ? & ? & ? & H & H' & _).
    injection H as <-. rewrite Eg in H'. discriminate. }
  destruct (write_xml (combined_gpx gpx' wps) output_gpx w) as [w2 [e|[]]]
    eqn:Ew; cbv beta iota delta [try_except raise ret].
  - split; [intros H; injection H as _ H; discriminate|].
    intros (_ & _ & ? & ? & ? & H & H' & H'').
    injection H as <-. rewrite Eg in H'. injection H' as <- <-.
    rewrite Ew in H''. discriminate.
  - split.
    + intros H. injection H as <-. split; [reflexivity|]. split; [reflexivity|].
      exists gpx, gpx', wps. repeat split; [exact Eg | exact Ew].
    + intros (_ & _ & ? & ? & ? & H & H' & H'').
      injection H as <-. rewrite Eg in H'. injection H' as <- <-.
      rewrite Ew in H''. injection H'' as <-. reflexivity.
Qed.

End ScriptProperties.

Lemma loaded_document_is_processed_witness :
  let run := generate_waypoints grid_inv plain_format
               (document None [point 0 0 None; point 0 0.01 None]%Q) "FLAT" in
  (exists track others,
      tracks (fst run) = track :: others /\ name track = Some "FLAT") /\
  snd run = raise NoElevationDataError.
Proof.
  destruct (loaded_document_is_processed grid_inv plain_format disk
              disk_open_parse "flat.gpx" sample_disk _ "FLAT" eq_refl)
    as [Hname _].
  split; [exact Hname | reflexivity].
Defined.



(** Three runs of [main] on the sample disk: one that writes, one that
    fails while loading, one that argparse refuses. *)
Example main_runs :
  (let run := main grid_inv plain_format disk disk_isfile disk_open_parse
                   disk_write_xml ascii_word "ridge.gpx" "out.gpx" "RIDGE"
                   sample_disk in
   snd run = Printed "GPX file with waypoints saved: out.gpx" /\
   map fst (written (fst run)) = ["out.gpx"] /\
   map (fun f => map wpt_name (combined_waypoints (snd f)))
       (written (fst run))
   = [[Some "RIDGE_TH"; Some "RIDGE_TE"; Some "RIDGE_KM1"; Some "RIDGE_KM2";
       Some "RIDGE_HGH"; Some "RIDGE_LWT"; Some "RIDGE_HLF"]]) /\
  main grid_inv plain_format disk disk_isfile disk_open_parse
       disk_write_xml ascii_word "empty.gpx" "out.gpx" "RIDGE" sample_disk
  = (sample_disk,
     Printed ("Unexpected error: Error parsing GPX file: " ++
              "No valid track data found in GPX file.")) /\
  main grid_inv plain_format disk disk_isfile disk_open_parse
       disk_write_xml ascii_word "ridge.gpx" "out.gpx" "trail one" sample_disk
  = (sample_disk, UsageError) /\
  snd (main grid_inv plain_format disk disk_isfile disk_open_parse
            disk_write_fails ascii_word "ridge.gpx" "out.gpx" "RIDGE"
            sample_disk)
  = Printed ("Unexpected error: Error saving combined GPX: " ++
             "No space left on device").
Proof.
  repeat split; reflexivity.
Qed.
